(** * KYC workflow: the transition engine and the services that drive it

    A shallow embedding of
    - [app/workflows/states.py]      (catalog, [WorkflowEngine]),
    - [app/services/workflow_service.py] ([WorkflowService]),
    - [app/services/kyc_service.py]  (approve / reject / risk score),
    with the properties of the workflow specification stated over it.

    Python values are modelled as follows.
    - [float] is IEEE binary64, i.e. Rocq's primitive [float]; a comparison
      [a >= b] is [b <=? a], and truthiness of a float is [x != 0].
    - [Dict[str, bool]] and [Dict[str, Any]] (score payloads) are
      [gmap string _]; [d.get(k, v)] is [default v (d !! k)].
    - the engine's [dict] keyed by [(from_state, to_state)] is an
      insertion-ordered association list with unique keys, because
      [get_next_states] returns its keys in iteration order.
    - [KYCStatus] and [WorkflowState] are [str]-mixin enums with the same
      members and values; they hash and compare by value, so one inductive
      type stands for both.
    - an exception is an explicit [Raise] outcome next to the state that the
      call left behind. *)

From Stdlib Require Import ZArith Floats.
From stdpp Require Import base decidable option list strings gmap.

Open Scope string_scope.

(* A decimal literal denotes the nearest binary64 value, in Python as here. *)
Set Warnings "-inexact-float".

(** ** Python helpers *)

Module Py.

(** [bool(x)] for a float: false exactly for [0.0] and [-0.0]. *)
Definition truthy_float (x : float) : bool := negb (PrimFloat.eqb x 0%float).

(** [bool(x)] for an optional float column: [None] is falsy. *)
Definition truthy_ofloat (o : option float) : bool :=
  match o with
  | Some x => truthy_float x
  | None => false
  end.

(** [bool(s)] for a string. *)
Definition truthy_str (s : string) : bool :=
  match s with
  | EmptyString => false
  | String _ _ => true
  end.

(** [sum(xs)]: left to right, starting from the integer [0], each addition
    rounded (CPython up to 3.11; later versions compensate the rounding error
    of a float sum, which can move the last bit of a result). *)
Definition sum (xs : list float) : float :=
  foldl PrimFloat.add 0%float xs.

(** [max(a, b)] on floats: the second argument only when it is greater. *)
Definition max (a b : float) : float :=
  if PrimFloat.ltb a b then b else a.

Section dict.
Context {K V : Type} `{EqDecision K}.

(** [d[k] = v]: an existing key keeps its position, a new one is appended. *)
Fixpoint dict_set (k : K) (v : V) (d : list (K * V)) : list (K * V) :=
  match d with
  | [] => [(k, v)]
  | (k', v') :: d' =>
      if decide (k' = k) then (k', v) :: d' else (k', v') :: dict_set k v d'
  end.

(** [d.get(k)]. *)
Fixpoint dict_get (k : K) (d : list (K * V)) : option V :=
  match d with
  | [] => None
  | (k', v') :: d' => if decide (k' = k) then Some v' else dict_get k d'
  end.

(** [d.keys()], in iteration order. *)
Definition dict_keys (d : list (K * V)) : list K := d.*1.
End dict.

End Py.

(** ** [app/workflows/states.py] *)

Inductive WorkflowState : Type :=
  | DRAFT
  | SUBMITTED
  | DOCUMENT_VERIFICATION
  | FACE_VERIFICATION
  | MANUAL_REVIEW
  | APPROVED
  | REJECTED
  | EXPIRED.

#[global] Instance WorkflowState_eq_dec : EqDecision WorkflowState.
Proof. solve_decision. Defined.

(** [app/models/kyc_application.py]: the same members with the same values. *)
Abbreviation KYCStatus := WorkflowState (only parsing).

(** The value of an enum member. *)
Definition state_value (s : WorkflowState) : string :=
  match s with
  | DRAFT => "draft"
  | SUBMITTED => "submitted"
  | DOCUMENT_VERIFICATION => "document_verification"
  | FACE_VERIFICATION => "face_verification"
  | MANUAL_REVIEW => "manual_review"
  | APPROVED => "approved"
  | REJECTED => "rejected"
  | EXPIRED => "expired"
  end.

Record StateTransition : Type := mkStateTransition {
  from_state : WorkflowState;
  to_state : WorkflowState;
  required_conditions : list string;
  allowed_roles : list string
}.

Definition WORKFLOW_TRANSITIONS : list StateTransition :=
  [ mkStateTransition DRAFT SUBMITTED
      ["has_required_documents"; "has_customer_data"] ["api_client"; "agent"];
    mkStateTransition SUBMITTED DOCUMENT_VERIFICATION
      ["documents_uploaded"] ["system"];
    mkStateTransition DOCUMENT_VERIFICATION FACE_VERIFICATION
      ["documents_verified"] ["system"];
    mkStateTransition DOCUMENT_VERIFICATION MANUAL_REVIEW
      ["low_confidence_score"] ["system"];
    mkStateTransition FACE_VERIFICATION APPROVED
      ["high_confidence_score"; "all_checks_passed"] ["system"];
    mkStateTransition FACE_VERIFICATION MANUAL_REVIEW
      ["medium_confidence_score"] ["system"];
    mkStateTransition FACE_VERIFICATION REJECTED
      ["failed_verification"] ["system"];
    mkStateTransition MANUAL_REVIEW APPROVED
      ["agent_approved"] ["agent"; "supervisor"];
    mkStateTransition MANUAL_REVIEW REJECTED
      ["agent_rejected"] ["agent"; "supervisor"];
    mkStateTransition SUBMITTED EXPIRED
      ["application_expired"] ["system"] ].

Record WorkflowEngine : Type := mkWorkflowEngine {
  transitions : list ((WorkflowState * WorkflowState) * StateTransition)
}.

Definition catalog_key (t : StateTransition) : WorkflowState * WorkflowState :=
  (from_state t, to_state t).

(** [WorkflowEngine.__init__]: the dict comprehension over the module-level
    list, which is passed explicitly here. *)
Definition WorkflowEngine_init (ts : list StateTransition) : WorkflowEngine :=
  {| transitions := foldl (fun d t => Py.dict_set (catalog_key t) t d) [] ts |}.

(** [workflow_engine = WorkflowEngine()] *)
Definition workflow_engine : WorkflowEngine :=
  WorkflowEngine_init WORKFLOW_TRANSITIONS.

(** The loop over [transition.required_conditions]: the first required
    condition that [conditions.get(condition, False)] does not make true. *)
Fixpoint first_unmet (conditions : gmap string bool) (required : list string)
  : option string :=
  match required with
  | [] => None
  | condition :: rest =>
      if negb (default false (conditions !! condition)) then Some condition
      else first_unmet conditions rest
  end.

Section Engine.

(** How an f-string renders an enum member: the member's value up to
    Python 3.10, [Class.MEMBER] from 3.11 on. *)
Variable fmt_state : WorkflowState -> string.

Definition can_transition (self : WorkflowEngine)
    (from_state to_state : WorkflowState)
    (conditions : gmap string bool) (user_role : string)
  : bool * option string :=
  match Py.dict_get (from_state, to_state) (transitions self) with
  | None =>
      (false, Some ("No transition defined from " +:+ fmt_state from_state
                      +:+ " to " +:+ fmt_state to_state))
  | Some transition =>
      if negb (bool_decide (user_role ∈ allowed_roles transition)) then
        (false, Some ("Role " +:+ user_role +:+ " not allowed for this transition"))
      else
        match first_unmet conditions (required_conditions transition) with
        | Some condition =>
            (false, Some ("Required condition not met: " +:+ condition))
        | None => (true, None)
        end
  end.

Definition get_next_states (self : WorkflowEngine) (current_state : WorkflowState)
  : list WorkflowState :=
  snd <$> filter (fun k => k.1 = current_state) (Py.dict_keys (transitions self)).

End Engine.

(** ** [app/models]: the columns the services read or write *)

Inductive RiskLevel : Type := LOW | MEDIUM | HIGH | CRITICAL.

Inductive DocumentType : Type :=
  | CIN_FRONT | CIN_BACK | PASSPORT | SELFIE | LIVENESS_VIDEO
  | PROOF_OF_ADDRESS | OTHER.

#[global] Instance DocumentType_eq_dec : EqDecision DocumentType.
Proof. solve_decision. Defined.

Inductive DocumentStatus : Type :=
  | DOC_UPLOADED | DOC_PROCESSING | DOC_VERIFIED | DOC_REJECTED | DOC_EXPIRED.

#[global] Instance DocumentStatus_eq_dec : EqDecision DocumentStatus.
Proof. solve_decision. Defined.

Record Document : Type := mkDocument {
  document_type : DocumentType;
  doc_status : DocumentStatus
}.

Inductive VerificationResult : Type := PASS | FAIL | VR_MANUAL_REVIEW | ERROR.

#[global] Instance VerificationResult_eq_dec : EqDecision VerificationResult.
Proof. solve_decision. Defined.

Record Verification : Type := mkVerification {
  result : VerificationResult;
  confidence_score : option float
}.

(** Timestamps are seconds on the UTC clock; identifiers (UUIDs) are numbers.
    The primary key is the key of the store below, not a field. *)
Record KYCApplication : Type := mkKYCApplication {
  application_number : string;
  cin_number : string;
  first_name : string;
  last_name : string;
  date_of_birth : option Z;
  status : KYCStatus;
  risk_level : option RiskLevel;
  risk_score : option float;
  document_verification_score : option float;
  face_verification_score : option float;
  overall_confidence_score : option float;
  reviewed_by_id : option N;
  review_notes : option string;
  reviewed_at : option Z;
  decision_reason : option string;
  decision_made_at : option Z;
  ip_address : option string;
  created_at : Z;
  expires_at : option Z;
  documents : list Document;
  verifications : list Verification
}.

Definition set_status (v : KYCStatus) (a : KYCApplication) : KYCApplication :=
  let 'mkKYCApplication an cn fn ln db _ rl rs ds fs os rb rn ra dr dm ip ca ea docs vs := a in
  mkKYCApplication an cn fn ln db v rl rs ds fs os rb rn ra dr dm ip ca ea docs vs.

Definition set_risk_level (v : option RiskLevel) (a : KYCApplication) : KYCApplication :=
  let 'mkKYCApplication an cn fn ln db st _ rs ds fs os rb rn ra dr dm ip ca ea docs vs := a in
  mkKYCApplication an cn fn ln db st v rs ds fs os rb rn ra dr dm ip ca ea docs vs.

Definition set_risk_score (v : option float) (a : KYCApplication) : KYCApplication :=
  let 'mkKYCApplication an cn fn ln db st rl _ ds fs os rb rn ra dr dm ip ca ea docs vs := a in
  mkKYCApplication an cn fn ln db st rl v ds fs os rb rn ra dr dm ip ca ea docs vs.

Definition set_document_verification_score (v : option float) (a : KYCApplication)
  : KYCApplication :=
  let 'mkKYCApplication an cn fn ln db st rl rs _ fs os rb rn ra dr dm ip ca ea docs vs := a in
  mkKYCApplication an cn fn ln db st rl rs v fs os rb rn ra dr dm ip ca ea docs vs.

Definition set_face_verification_score (v : option float) (a : KYCApplication)
  : KYCApplication :=
  let 'mkKYCApplication an cn fn ln db st rl rs ds _ os rb rn ra dr dm ip ca ea docs vs := a in
  mkKYCApplication an cn fn ln db st rl rs ds v os rb rn ra dr dm ip ca ea docs vs.

Definition set_overall_confidence_score (v : option float) (a : KYCApplication)
  : KYCApplication :=
  let 'mkKYCApplication an cn fn ln db st rl rs ds fs _ rb rn ra dr dm ip ca ea docs vs := a in
  mkKYCApplication an cn fn ln db st rl rs ds fs v rb rn ra dr dm ip ca ea docs vs.

Definition set_reviewed_by_id (v : option N) (a : KYCApplication) : KYCApplication :=
  let 'mkKYCApplication an cn fn ln db st rl rs ds fs os _ rn ra dr dm ip ca ea docs vs := a in
  mkKYCApplication an cn fn ln db st rl rs ds fs os v rn ra dr dm ip ca ea docs vs.

Definition set_review_notes (v : option string) (a : KYCApplication) : KYCApplication :=
  let 'mkKYCApplication an cn fn ln db st rl rs ds fs os rb _ ra dr dm ip ca ea docs vs := a in
  mkKYCApplication an cn fn ln db st rl rs ds fs os rb v ra dr dm ip ca ea docs vs.

Definition set_reviewed_at (v : option Z) (a : KYCApplication) : KYCApplication :=
  let 'mkKYCApplication an cn fn ln db st rl rs ds fs os rb rn _ dr dm ip ca ea docs vs := a in
  mkKYCApplication an cn fn ln db st rl rs ds fs os rb rn v dr dm ip ca ea docs vs.

Definition set_decision_reason (v : option string) (a : KYCApplication) : KYCApplication :=
  let 'mkKYCApplication an cn fn ln db st rl rs ds fs os rb rn ra _ dm ip ca ea docs vs := a in
  mkKYCApplication an cn fn ln db st rl rs ds fs os rb rn ra v dm ip ca ea docs vs.

Definition set_decision_made_at (v : option Z) (a : KYCApplication) : KYCApplication :=
  let 'mkKYCApplication an cn fn ln db st rl rs ds fs os rb rn ra dr _ ip ca ea docs vs := a in
  mkKYCApplication an cn fn ln db st rl rs ds fs os rb rn ra dr v ip ca ea docs vs.

Record User : Type := mkUser {
  user_id : N;
  username : string;
  role : string
}.

Record AuditLog : Type := mkAuditLog {
  al_action : string;
  al_resource_type : string;
  al_resource_id : option N;
  al_kyc_application_id : option N;
  al_description : string;
  al_user_id : option N;
  al_username : option string;
  al_ip_address : string;
  al_changes : option (KYCStatus * KYCStatus);
  al_audit_metadata : list (string * option string);
  al_retention_until : Z
}.

(** ** The session: rows, audit trail, clock; and calls that may raise *)

Record KYCException : Type := mkKYCException {
  error_code : string;
  message : option string
}.

(** An exception that is not a [KYCException]. *)
Inductive PyError : Type :=
  | AttributeError (type_name attribute : string).

Inductive outcome (A : Type) : Type :=
  | Return (a : A)
  | Raise (e : KYCException)
  | Error (e : PyError).
Arguments Return {A} a.
Arguments Raise {A} e.
Arguments Error {A} e.

(** An application object loaded in the session and its row are one entry of
    [apps]: an attribute assignment is an update of that entry, and
    [commit]/[refresh] add nothing to it. *)
Record World : Type := mkWorld {
  apps : gmap N KYCApplication;
  audit_logs : list AuditLog;
  utcnow : Z
}.

Definition M (A : Type) : Type := World -> outcome A * World.

Definition ret {A} (a : A) : M A := fun w => (Return a, w).

Definition raise {A} (e : KYCException) : M A := fun w => (Raise e, w).

Definition error {A} (e : PyError) : M A := fun w => (Error e, w).

Definition bind {A B} (m : M A) (k : A -> M B) : M B :=
  fun w =>
    match m w with
    | (Return a, w') => k a w'
    | (Raise e, w') => (Raise e, w')
    | (Error e, w') => (Error e, w')
    end.

Notation "x <~ m ;; k" := (bind m (fun x => k))
  (at level 100, m at next level, right associativity).
Notation "m ;;; k" := (bind m (fun _ => k))
  (at level 100, right associativity).

Definition now : M Z := fun w => (Return (utcnow w), w).

(** [repo.get_by_id] *)
Definition get_by_id (id : N) : M (option KYCApplication) :=
  fun w => (Return (apps w !! id), w).

(** Attribute assignments on the loaded application [id]. *)
Definition update_app (id : N) (f : KYCApplication -> KYCApplication) : M unit :=
  fun w => (Return tt, mkWorld (alter f id (apps w)) (audit_logs w) (utcnow w)).

Definition db_add_audit (l : AuditLog) : M unit :=
  fun w => (Return tt, mkWorld (apps w) (audit_logs w ++ [l])%list (utcnow w)).

(** [repo.count_by_ip]: rows with this address created in the last [days] days. *)
Definition count_by_ip (w : World) (ip : option string) (days : Z) : nat :=
  let since := (utcnow w - days * 86400)%Z in
  length (filter (fun a => ip_address a = ip ∧ (since ≤ created_at a)%Z)
                 ((map_to_list (apps w)).*2)).

(** ** [app/config.py] *)

Definition AUTO_APPROVE_THRESHOLD : float := 0.95%float.
Definition MANUAL_REVIEW_THRESHOLD : float := 0.75%float.

(** The integer fields that [Settings] declares, with their defaults. *)
Definition settings_int_fields : list (string * Z) :=
  [ ("ACCESS_TOKEN_EXPIRE_MINUTES", 30%Z);
    ("REFRESH_TOKEN_EXPIRE_DAYS", 7%Z);
    ("DB_POOL_SIZE", 20%Z);
    ("DB_MAX_OVERFLOW", 40%Z);
    ("MAX_UPLOAD_SIZE", 10485760%Z) ].

(** [settings.NAME] for an integer setting. [Settings] has
    [extra = "ignore"], so a name it does not declare is not an attribute even
    when the environment gives it a value: reading it raises. *)
Definition settings_int (name : string) : M Z :=
  match Py.dict_get name settings_int_fields with
  | Some v => ret v
  | None => error (AttributeError "Settings" name)
  end.

(** ** [app/services/audit_service.py], [workflow_service.py], [kyc_service.py] *)

(** [if verification_results:] a payload that is neither [None] nor empty. *)
Definition nonempty_payload (verification_results : option (gmap string float))
  : option (gmap string float) :=
  match verification_results with
  | Some results => if Nat.eqb (size results) 0 then None else Some results
  | None => None
  end.

(** [x or 0] for an optional float column. *)
Definition or_zero (o : option float) : float :=
  match o with
  | Some x => if Py.truthy_float x then x else 0%float
  | None => 0%float
  end.

Definition _determine_next_state (application : KYCApplication)
    (verification_results : option (gmap string float)) : KYCStatus :=
  let current := status application in
  match current with
  | SUBMITTED => DOCUMENT_VERIFICATION
  | DOCUMENT_VERIFICATION =>
      match nonempty_payload verification_results with
      | Some results =>
          let doc_score := default 0%float (results !! "document_verification_score") in
          if (AUTO_APPROVE_THRESHOLD <=? doc_score)%float then FACE_VERIFICATION
          else if (MANUAL_REVIEW_THRESHOLD <=? doc_score)%float then FACE_VERIFICATION
          else MANUAL_REVIEW
      | None => current
      end
  | FACE_VERIFICATION =>
      match nonempty_payload verification_results with
      | Some results =>
          let face_score := default 0%float (results !! "face_verification_score") in
          let overall := or_zero (overall_confidence_score application) in
          if (AUTO_APPROVE_THRESHOLD <=? overall)%float then APPROVED
          else if (MANUAL_REVIEW_THRESHOLD <=? overall)%float then MANUAL_REVIEW
          else REJECTED
      | None => current
      end
  | MANUAL_REVIEW => current
  | _ => current
  end.

Definition _has_required_documents (application : KYCApplication) : bool :=
  let required_types := [CIN_FRONT; CIN_BACK; SELFIE] in
  let uploaded_types := document_type <$> documents application in
  forallb (fun dtype => bool_decide (dtype ∈ uploaded_types)) required_types.

Definition _has_customer_data (application : KYCApplication) : bool :=
  forallb id
    [ Py.truthy_str (cin_number application);
      Py.truthy_str (first_name application);
      Py.truthy_str (last_name application);
      bool_decide (is_Some (date_of_birth application)) ].

Definition _documents_verified (application : KYCApplication) : bool :=
  let verified_docs :=
    filter (fun doc => doc_status doc = DOC_VERIFIED) (documents application) in
  Nat.leb 2 (length verified_docs).

Definition _all_checks_passed (application : KYCApplication)
    (verification_results : option (gmap string float)) : bool :=
  match nonempty_payload verification_results with
  | None => false
  | Some _ =>
      match verifications application with
      | [] => false
      | vs => forallb (fun v => bool_decide (result v = PASS)) vs
      end
  end.

Definition _is_expired (utc : Z) (application : KYCApplication) : bool :=
  match expires_at application with
  | None => false
  | Some e => (e <? utc)%Z
  end.

Definition _build_transition_conditions (utc : Z) (application : KYCApplication)
    (verification_results : option (gmap string float)) : gmap string bool :=
  let conditions : gmap string bool :=
    {[ "has_required_documents" := _has_required_documents application;
       "has_customer_data" := _has_customer_data application;
       "documents_uploaded" := Nat.ltb 0 (length (documents application));
       "documents_verified" := _documents_verified application;
       "all_checks_passed" := _all_checks_passed application verification_results;
       "application_expired" := _is_expired utc application ]} in
  match nonempty_payload verification_results with
  | Some results =>
      let overall := default 0%float (results !! "overall_confidence_score") in
      <["failed_verification" := (overall <? 0.5)%float]>
        (<["low_confidence_score" := (overall <? MANUAL_REVIEW_THRESHOLD)%float]>
          (<["medium_confidence_score" := (MANUAL_REVIEW_THRESHOLD <=? overall)%float]>
            (<["high_confidence_score" := (AUTO_APPROVE_THRESHOLD <=? overall)%float]>
              conditions)))
  | None =>
      <["failed_verification" := false]>
        (<["low_confidence_score" := false]>
          (<["medium_confidence_score" := false]>
            (<["high_confidence_score" := false]> conditions)))
  end.

(** [if key in results: application.key = results[key]], four times. *)
Definition copy_score (results : gmap string float) (key : string)
    (set : option float -> KYCApplication -> KYCApplication)
    (application : KYCApplication) : KYCApplication :=
  match results !! key with
  | Some v => set (Some v) application
  | None => application
  end.

Definition _update_verification_scores (results : gmap string float)
    (application : KYCApplication) : KYCApplication :=
  copy_score results "risk_score" set_risk_score
    (copy_score results "overall_confidence_score" set_overall_confidence_score
      (copy_score results "face_verification_score" set_face_verification_score
        (copy_score results "document_verification_score"
           set_document_verification_score application))).

Definition _determine_risk_level (score : float) : RiskLevel :=
  if (0.9 <=? score)%float then LOW
  else if (0.75 <=? score)%float then MEDIUM
  else if (0.5 <=? score)%float then HIGH
  else CRITICAL.

Definition _check_fraud_indicators (w : World) (application : KYCApplication) : float :=
  let fraud_score := 1.0%float in
  let duplicate_count := count_by_ip w (ip_address application) 7 in
  let fraud_score :=
    if Nat.ltb 5 duplicate_count then (fraud_score - 0.3)%float else fraud_score in
  Py.max 0.0%float fraud_score.

(** The [weights] dict, in insertion order. *)
Definition weights : list (string * float) :=
  [("document", 0.4%float); ("face", 0.4%float); ("fraud", 0.2%float)].

Definition weight (k : string) : float := default 0%float (Py.dict_get k weights).

(** [scores.append(x * w)] guarded by [if x:]. *)
Definition append_if_truthy (o : option float) (wt : float) (scores : list float)
  : list float :=
  match o with
  | Some x => if Py.truthy_float x then (scores ++ [(x * wt)%float])%list else scores
  | None => scores
  end.

(** [KYCService.calculate_risk_score]: the returned score and the application
    as the call leaves it. *)
Definition calculate_risk_score (w : World) (application : KYCApplication)
  : float * KYCApplication :=
  let scores := [] in
  let scores :=
    append_if_truthy (document_verification_score application) (weight "document") scores in
  let scores :=
    append_if_truthy (face_verification_score application) (weight "face") scores in
  let fraud_score := _check_fraud_indicators w application in
  let scores := (scores ++ [(fraud_score * weight "fraud")%float])%list in
  let overall_score :=
    match scores with
    | [] => 0.0%float
    | _ => (Py.sum scores / Py.sum (weights.*2))%float
    end in
  (overall_score,
   set_risk_level (Some (_determine_risk_level overall_score))
     (set_overall_confidence_score (Some overall_score) application)).

(** [workflow_engine = WorkflowEngine()] evaluated at import: the call returns
    the engine or raises. The constructor has no [raise]. *)
Definition WorkflowEngine_new (ts : list StateTransition) : outcome WorkflowEngine :=
  Return (WorkflowEngine_init ts).

Section Services.

Variable fmt_state : WorkflowState -> string.

(** [AuditService.log_action]; [username] and [user_agent] are never passed.
    Its first statement reads [settings.AUDIT_LOG_RETENTION_DAYS], which
    [app/config.py] does not declare. The keyword [metadata=] of the row's
    constructor is not the mapped column [audit_metadata], which keeps its
    default, the empty dict. *)
Definition log_action (action resource_type : string)
    (resource_id kyc_application_id : option N) (description : option string)
    (user_id : option N) (ip_address : option string)
    (changes : option (KYCStatus * KYCStatus))
    (metadata : list (string * option string)) : M AuditLog :=
  utc <~ now ;;
  AUDIT_LOG_RETENTION_DAYS <~ settings_int "AUDIT_LOG_RETENTION_DAYS" ;;
  let retention_until := (utc + AUDIT_LOG_RETENTION_DAYS * 86400)%Z in
  let audit_log :=
    {| al_action := action;
       al_resource_type := resource_type;
       al_resource_id := resource_id;
       al_kyc_application_id := kyc_application_id;
       al_description :=
         match description with
         | Some d => if Py.truthy_str d then d else action +:+ " on " +:+ resource_type
         | None => action +:+ " on " +:+ resource_type
         end;
       al_user_id := user_id;
       al_username := None;
       al_ip_address :=
         match ip_address with
         | Some ip => if Py.truthy_str ip then ip else "system"
         | None => "system"
         end;
       al_changes := changes;
       al_audit_metadata := [];
       al_retention_until := retention_until |} in
  db_add_audit audit_log ;;;
  ret audit_log.

(** [WorkflowService._trigger_next_step] only writes to the logger. *)
Definition _trigger_next_step (application_id : N) (new_state : KYCStatus) : M unit :=
  ret tt.

(** [WorkflowService.advance_workflow]; [engine] is the module-level
    [workflow_engine] the service imports. *)
Definition advance_workflow (engine : WorkflowEngine) (application_id : N)
    (verification_results : option (gmap string float)) : M KYCApplication :=
  found <~ get_by_id application_id ;;
  match found with
  | None => raise (mkKYCException "NOT_FOUND" (Some "Application not found"))
  | Some application =>
      let current_state := status application in
      let next_state := _determine_next_state application verification_results in
      if decide (next_state = current_state) then ret application
      else
        utc <~ now ;;
        let conditions :=
          _build_transition_conditions utc application verification_results in
        let '(can, reason) :=
          can_transition fmt_state engine current_state next_state conditions "system" in
        if negb can then raise (mkKYCException "INVALID_TRANSITION" reason)
        else
          let old_status := status application in
          update_app application_id (set_status next_state) ;;;
          match nonempty_payload verification_results with
          | Some results =>
              update_app application_id (_update_verification_scores results)
          | None => ret tt
          end ;;;
          log_action "WORKFLOW_TRANSITION" "KYC_APPLICATION"
            (Some application_id) (Some application_id)
            (Some ("Workflow transitioned: " +:+ fmt_state old_status
                     +:+ " -> " +:+ fmt_state next_state))
            None None (Some (old_status, next_state)) [] ;;;
          _trigger_next_step application_id next_state ;;;
          refreshed <~ get_by_id application_id ;;
          ret (default application refreshed)
  end.

(** [KYCService.approve_application] *)
Definition approve_application (application_id : N) (user : User)
    (notes : option string) : M KYCApplication :=
  found <~ get_by_id application_id ;;
  match found with
  | None => raise (mkKYCException "NOT_FOUND" (Some "Application not found"))
  | Some application =>
      if negb (bool_decide (role user ∈ ["agent"; "supervisor"; "admin"])) then
        raise (mkKYCException "FORBIDDEN" (Some "Insufficient permissions"))
      else
        utc <~ now ;;
        update_app application_id
          (fun a =>
             set_decision_made_at (Some utc)
               (set_reviewed_at (Some utc)
                 (set_review_notes notes
                   (set_reviewed_by_id (Some (user_id user))
                     (set_status APPROVED a))))) ;;;
        log_action "APPROVE" "KYC_APPLICATION"
          (Some application_id) (Some application_id)
          (Some ("Approved application " +:+ application_number application))
          (Some (user_id user)) None None [("notes", notes)] ;;;
        refreshed <~ get_by_id application_id ;;
        ret (default application refreshed)
  end.

(** [KYCService.reject_application] *)
Definition reject_application (application_id : N) (user : User)
    (reason : string) (notes : option string) : M KYCApplication :=
  found <~ get_by_id application_id ;;
  match found with
  | None => raise (mkKYCException "NOT_FOUND" (Some "Application not found"))
  | Some application =>
      if negb (bool_decide (role user ∈ ["agent"; "supervisor"; "admin"])) then
        raise (mkKYCException "FORBIDDEN" (Some "Insufficient permissions"))
      else
        utc <~ now ;;
        update_app application_id
          (fun a =>
             set_decision_made_at (Some utc)
               (set_reviewed_at (Some utc)
                 (set_decision_reason (Some reason)
                   (set_review_notes notes
                     (set_reviewed_by_id (Some (user_id user))
                       (set_status REJECTED a)))))) ;;;
        log_action "REJECT" "KYC_APPLICATION"
          (Some application_id) (Some application_id)
          (Some ("Rejected application " +:+ application_number application))
          (Some (user_id user)) None None
          [("reason", Some reason); ("notes", notes)] ;;;
        refreshed <~ get_by_id application_id ;;
        ret (default application refreshed)
  end.

End Services.

(** ** The aggregation as the specification words it, for comparison

    [(doc·0.4 + face·0.4 + fraud·0.2) / (sum of the weights actually present)],
    and [0.0] when no sub-score is present. *)
Definition spec_renormalized_score (doc face fraud : option float) : float :=
  let term (o : option float) (wt : float) : list (float * float) :=
    match o with
    | Some x => [((x * wt)%float, wt)]
    | None => []
    end in
  let present := (term doc 0.4%float ++ term face 0.4%float ++ term fraud 0.2%float)%list in
  match present with
  | [] => 0.0%float
  | _ => (Py.sum (present.*1) / Py.sum (present.*2))%float
  end.

(** ** Concrete inputs *)

Module Sample.

Definition application (st : KYCStatus) (doc face overall : option float)
  : KYCApplication :=
  {| application_number := "KYC-2024-000001";
     cin_number := "AB123456";
     first_name := "Amal";
     last_name := "Idrissi";
     date_of_birth := Some 631152000%Z;
     status := st;
     risk_level := None;
     risk_score := None;
     document_verification_score := doc;
     face_verification_score := face;
     overall_confidence_score := overall;
     reviewed_by_id := None;
     review_notes := None;
     reviewed_at := None;
     decision_reason := None;
     decision_made_at := None;
     ip_address := Some "10.0.0.1";
     created_at := 1700000000%Z;
     expires_at := Some 1702592000%Z;
     documents :=
       [ mkDocument CIN_FRONT DOC_VERIFIED;
         mkDocument CIN_BACK DOC_VERIFIED;
         mkDocument SELFIE DOC_VERIFIED ];
     verifications := [ mkVerification PASS (Some 0.99%float) ] |}.

(** One application, with primary key 1, a little after its creation. *)
Definition world (a : KYCApplication) : World :=
  {| apps := {[ 1%N := a ]}; audit_logs := []; utcnow := 1700000600%Z |}.

Definition payload (overall : float) : option (gmap string float) :=
  Some {[ "overall_confidence_score" := overall ]}.

Definition agent : User := {| user_id := 7; username := "reviewer"; role := "agent" |}.

(** Two definitions for the pair (DRAFT, SUBMITTED). *)
Definition strict : StateTransition :=
  mkStateTransition DRAFT SUBMITTED ["has_customer_data"] ["agent"].
Definition lax : StateTransition :=
  mkStateTransition DRAFT SUBMITTED [] ["api_client"].
Definition duplicated : list StateTransition := [strict; lax].

End Sample.

(** ** Further code of the same services *)

(** The value of a [DocumentType] member, which a comparison with a plain
    string uses. *)
Definition document_type_value (t : DocumentType) : string :=
  match t with
  | CIN_FRONT => "cin_front"
  | CIN_BACK => "cin_back"
  | PASSPORT => "passport"
  | SELFIE => "selfie"
  | LIVENESS_VIDEO => "liveness_video"
  | PROOF_OF_ADDRESS => "proof_of_address"
  | OTHER => "other"
  end.

(** [KYCService._validate_application]: the pair of ["is_valid"] and
    ["errors"]. *)
Definition _validate_application (application : KYCApplication)
  : bool * list string :=
  let errors : list string := [] in
  let errors :=
    if negb (Py.truthy_str (cin_number application))
    then (errors ++ ["CIN number required"])%list else errors in
  let errors :=
    if negb (Py.truthy_str (first_name application))
       || negb (Py.truthy_str (last_name application))
    then (errors ++ ["Full name required"])%list else errors in
  let errors :=
    if negb (bool_decide (is_Some (date_of_birth application)))
    then (errors ++ ["Date of birth required"])%list else errors in
  let required_doc_types := ["cin_front"; "cin_back"; "selfie"] in
  let uploaded_types :=
    (fun doc => document_type_value (document_type doc)) <$> documents application in
  let errors :=
    foldl (fun errors doc_type =>
             if negb (bool_decide (doc_type ∈ uploaded_types))
             then (errors ++ ["Document type " +:+ doc_type +:+ " required"])%list
             else errors)
          errors required_doc_types in
  (Nat.eqb (length errors) 0, errors).

(** [KYCRepository.get_expired_applications]; a row without [expires_at]
    fails the comparison. The order of the rows is the database's. *)
Definition get_expired_applications (w : World) : list KYCApplication :=
  filter (fun a =>
            match expires_at a with
            | Some e => (e <=? utcnow w)%Z
            | None => false
            end
            && bool_decide (status a ∈ [DRAFT; SUBMITTED; DOCUMENT_VERIFICATION])
            = true)
         ((map_to_list (apps w)).*2).

(** [app/dependencies.py], [RoleChecker.__call__]: the user, or [None] for
    the 403 response. Roles are compared by value. *)
Definition RoleChecker (allowed_roles : list string) (user : User) : option User :=
  if negb (bool_decide (role user ∈ allowed_roles)) then None else Some user.

Definition require_admin : User → option User := RoleChecker ["admin"].
Definition require_auditor : User → option User := RoleChecker ["admin"; "auditor"].

(** ** What a committed move leaves behind, for the statements below *)

(** The application after an allowed move: the new status, then the payload's
    scores. *)
Definition moved (next_state : KYCStatus) (vr : option (gmap string float))
    (a : KYCApplication) : KYCApplication :=
  match nonempty_payload vr with
  | Some results => _update_verification_scores results (set_status next_state a)
  | None => set_status next_state a
  end.

(** The application after a reviewer's decision at time [utc]. *)
Definition decided (decision : KYCStatus) (user : User) (notes : option string)
    (reason : option string) (utc : Z) (a : KYCApplication) : KYCApplication :=
  let a := set_review_notes notes (set_reviewed_by_id (Some (user_id user))
             (set_status decision a)) in
  let a := match reason with
           | Some r => set_decision_reason (Some r) a
           | None => a
           end in
  set_decision_made_at (Some utc) (set_reviewed_at (Some utc) a).

(** The session after a call extends the one before: same identifiers, the
    old audit entries first and at most one new entry, the same clock. *)
Definition extends (w w' : World) : Prop :=
  dom (apps w') = dom (apps w)
  ∧ audit_logs w `prefix_of` audit_logs w'
  ∧ (length (audit_logs w') ≤ S (length (audit_logs w)))%nat
  ∧ utcnow w' = utcnow w.

(** * Properties *)

(** ** The insertion-ordered dictionary *)

Section dict_facts.
Context {K V : Type} `{EqDecision K}.
Implicit Types (k : K) (v : V) (d : list (K * V)).

Lemma dict_get_set k k' v d :
  Py.dict_get k (Py.dict_set k' v d)
  = if decide (k' = k) then Some v else Py.dict_get k d.
Proof.
  induction d as [|[k0 v0] d IH]; simpl.
  - by repeat case_decide.
  - repeat (case_decide; simpl; subst); try done.
Qed.

Lemma dict_keys_set k v d :
  Py.dict_keys (Py.dict_set k v d)
  = if decide (k ∈ Py.dict_keys d) then Py.dict_keys d else (Py.dict_keys d ++ [k])%list.
Proof.
  unfold Py.dict_keys. induction d as [|[k0 v0] d IH]; csimpl.
  - done.
  - destruct (decide (k0 = k)) as [->|Hne]; csimpl.
    + rewrite decide_True; [done | left].
    + rewrite IH. destruct (decide (k ∈ d.*1)) as [Hin|Hin].
      * rewrite decide_True; [done | by right].
      * rewrite decide_False; [done |].
        intros [?|?]%elem_of_cons; congruence.
Qed.

Lemma dict_keys_set_NoDup k v d :
  NoDup (Py.dict_keys d) → NoDup (Py.dict_keys (Py.dict_set k v d)).
Proof.
  intros Hd. rewrite dict_keys_set. case_decide as Hin; [done |].
  apply NoDup_app. split_and!; [done | | apply NoDup_singleton].
  intros x Hx ->%list_elem_of_singleton. done.
Qed.

Lemma dict_get_is_Some k d : is_Some (Py.dict_get k d) ↔ k ∈ Py.dict_keys d.
Proof.
  unfold Py.dict_keys. induction d as [|[k0 v0] d IH]; csimpl.
  - split; [by intros [? ?] | by intros ?%elem_of_nil].
  - case_decide as Hk; subst.
    + split; [intros _; left | by eexists].
    + rewrite IH. split; [by right |].
      intros [?|?]%elem_of_cons; congruence.
Qed.

(** A dictionary filled by successive assignments, as a comprehension does. *)
Local Abbreviation dict_of key d vs :=
  (foldl (fun d0 v0 => Py.dict_set (key v0) v0 d0) d vs).

Lemma dict_of_NoDup key d vs :
  NoDup (Py.dict_keys d) → NoDup (Py.dict_keys (dict_of key d vs)).
Proof.
  revert d. induction vs as [|v vs IH]; intros d Hd; simpl; [done |].
  apply IH, dict_keys_set_NoDup, Hd.
Qed.

(** The last assignment to a key wins. *)
Lemma dict_of_get key d vs k :
  Py.dict_get k (dict_of key d vs)
  = match last (filter (fun v => key v = k) vs) with
    | Some v => Some v
    | None => Py.dict_get k d
    end.
Proof.
  revert d. induction vs as [|v vs IH]; intros d; simpl; [done |].
  rewrite IH, dict_get_set, filter_cons.
  destruct (decide (key v = k)) as [Hk|Hk]; [| done].
  destruct (filter (fun v0 => key v0 = k) vs) as [|v1 l] eqn:Hf; [done |].
  rewrite last_cons_cons.
  destruct (last (v1 :: l)) eqn:Hl; [done |]. by apply last_None in Hl.
Qed.

Lemma dict_of_keys key d vs k :
  k ∈ Py.dict_keys (dict_of key d vs) ↔ k ∈ Py.dict_keys d ∨ ∃ v, v ∈ vs ∧ key v = k.
Proof.
  revert d. induction vs as [|v vs IH]; intros d; simpl.
  - split; [by left | intros [?|(? & ?%elem_of_nil & _)]; done].
  - rewrite IH, dict_keys_set. split.
    + intros [Hin|(v' & Hv' & Hk)].
      * case_decide; [by left |].
        apply elem_of_app in Hin as [?|Hk%list_elem_of_singleton]; [by left |].
        right. exists v. split; [left | done].
      * right. exists v'. split; [by right | done].
    + intros [Hin|(v' & Hv' & Hk)].
      * left. case_decide; [done | apply elem_of_app; by left].
      * apply elem_of_cons in Hv' as [->|Hv'].
        -- left. subst k. case_decide; [done |].
           apply elem_of_app; right. by apply list_elem_of_singleton.
        -- right. by exists v'.
Qed.
End dict_facts.

(** ** The engine *)

Lemma first_unmet_None (conditions : gmap string bool) (required : list string) :
  first_unmet conditions required = None
  ↔ Forall (fun c => conditions !! c = Some true) required.
Proof.
  induction required as [|c rest IH]; simpl.
  - split; [constructor | done].
  - destruct (conditions !! c) as [[|]|] eqn:Hc; simpl.
    + rewrite IH. split; [intros ?; by constructor | by intros [_ ?]%Forall_cons].
    + split; [done | intros [? _]%Forall_cons; congruence].
    + split; [done | intros [? _]%Forall_cons; congruence].
Qed.

Lemma first_unmet_Some (conditions : gmap string bool) (required : list string) c :
  first_unmet conditions required = Some c →
  c ∈ required ∧ conditions !! c ≠ Some true.
Proof.
  induction required as [|c0 rest IH]; simpl; [done |].
  destruct (conditions !! c0) as [[|]|] eqn:Hc; simpl.
  - intros [? ?]%IH. split; [by right | done].
  - intros [= <-]. split; [left | congruence].
  - intros [= <-]. split; [left | congruence].
Qed.

Lemma engine_keys_NoDup (ts : list StateTransition) :
  NoDup (Py.dict_keys (transitions (WorkflowEngine_init ts))).
Proof. apply dict_of_NoDup. constructor. Qed.

Lemma elem_of_next_states (self : WorkflowEngine) (s t : WorkflowState) :
  t ∈ get_next_states self s ↔ (s, t) ∈ Py.dict_keys (transitions self).
Proof.
  unfold get_next_states. rewrite list_elem_of_fmap. split.
  - intros ([s' t'] & -> & [Hs Hin]%list_elem_of_filter). simpl in *. by subst.
  - intros Hin. exists (s, t). split; [done |]. by apply list_elem_of_filter.
Qed.

Lemma next_states_NoDup (self : WorkflowEngine) (s : WorkflowState) :
  NoDup (Py.dict_keys (transitions self)) → NoDup (get_next_states self s).
Proof.
  intros Hnd. unfold get_next_states.
  apply NoDup_fmap_2_strong; [| by apply NoDup_filter].
  intros [s1 t1] [s2 t2] [Hs1 _]%list_elem_of_filter [Hs2 _]%list_elem_of_filter.
  simpl in *. congruence.
Qed.

(** C5. [can_transition] allows a move exactly when the pair has a catalog
    entry, the role is one of that entry's roles, and every required condition
    is mapped to [true] by the supplied map (a missing name counts as false):
    a plain conjunction. With no required condition, the role check alone
    decides. *)
Theorem can_transition_allowed_iff (fmt_state : WorkflowState → string)
    (self : WorkflowEngine) (f t : WorkflowState)
    (conditions : gmap string bool) (user_role : string) :
  (can_transition fmt_state self f t conditions user_role = (true, None)
   ↔ ∃ tr, Py.dict_get (f, t) (transitions self) = Some tr
           ∧ user_role ∈ allowed_roles tr
           ∧ Forall (fun c => conditions !! c = Some true) (required_conditions tr))
  ∧ ((can_transition fmt_state self f t conditions user_role).1 = true
     ↔ can_transition fmt_state self f t conditions user_role = (true, None))
  ∧ (∀ tr, Py.dict_get (f, t) (transitions self) = Some tr →
           required_conditions tr = [] →
           (can_transition fmt_state self f t conditions user_role = (true, None)
            ↔ user_role ∈ allowed_roles tr)).
Proof.
  unfold can_transition.
  destruct (Py.dict_get (f, t) (transitions self)) as [tr|] eqn:Hget.
  - destruct (decide (user_role ∈ allowed_roles tr)) as [Hrole|Hrole].
    + rewrite (bool_decide_eq_true_2 _ Hrole). simpl.
      destruct (first_unmet conditions (required_conditions tr)) as [c|] eqn:Hc.
      * apply first_unmet_Some in Hc as [Hin Hc].
        split_and!; [split; [done |] | done |].
        -- intros (tr' & [= <-] & _ & Hall).
           rewrite Forall_forall in Hall. by apply Hall in Hin.
        -- intros tr' [= <-] Hnil. rewrite Hnil in Hin. by apply elem_of_nil in Hin.
      * apply first_unmet_None in Hc.
        split_and!; [split; [| done] | done |].
        -- intros _. by exists tr.
        -- by intros tr' [= <-] _.
    + rewrite (bool_decide_eq_false_2 _ Hrole). simpl.
      split_and!; [split; [done |] | done |].
      * by intros (tr' & [= <-] & ? & _).
      * by intros tr' [= <-] _.
  - split_and!; [split; [done |] | done | done].
    by intros (tr' & ? & _).
Qed.

(** C6. A pair without a catalog entry is refused, for every role and every
    condition map, with the reason "No transition defined from .. to ..". *)
Theorem can_transition_undefined_pair (fmt_state : WorkflowState → string)
    (self : WorkflowEngine) (f t : WorkflowState)
    (conditions : gmap string bool) (user_role : string) :
  Py.dict_get (f, t) (transitions self) = None →
  can_transition fmt_state self f t conditions user_role
  = (false, Some ("No transition defined from " +:+ fmt_state f
                    +:+ " to " +:+ fmt_state t)).
Proof. intros Hget. unfold can_transition. by rewrite Hget. Qed.

Lemma can_transition_undefined_pair_witness :
  can_transition state_value workflow_engine APPROVED DRAFT
    {[ "agent_approved" := true ]} "admin"
  = (false, Some "No transition defined from approved to draft").
Proof.
  apply (can_transition_undefined_pair state_value workflow_engine APPROVED DRAFT).
  reflexivity.
Defined.

(** C9. For an engine built from any transition list, [get_next_states s]
    holds [t] exactly when the lookup of [(s, t)] is defined, that is exactly
    when some listed transition goes from [s] to [t]; and it holds no state
    twice. *)
Theorem get_next_states_spec (ts : list StateTransition) (s : WorkflowState) :
  (∀ t, t ∈ get_next_states (WorkflowEngine_init ts) s
        ↔ is_Some (Py.dict_get (s, t) (transitions (WorkflowEngine_init ts))))
  ∧ (∀ t, t ∈ get_next_states (WorkflowEngine_init ts) s
          ↔ ∃ tr, tr ∈ ts ∧ from_state tr = s ∧ to_state tr = t)
  ∧ NoDup (get_next_states (WorkflowEngine_init ts) s).
Proof.
  split_and!.
  - intros t. by rewrite elem_of_next_states, dict_get_is_Some.
  - intros t. rewrite elem_of_next_states. unfold WorkflowEngine_init. simpl.
    rewrite dict_of_keys. split.
    + intros [[]%elem_of_nil|(tr & Hin & [= Hf Ht])]. by exists tr.
    + intros (tr & Hin & Hf & Ht). right. exists tr. split; [done |].
      unfold catalog_key. by rewrite Hf, Ht.
  - apply next_states_NoDup, engine_keys_NoDup.
Qed.

(** C7 (as the code has it). Building the engine never fails: when the list
    defines a pair more than once, the last definition is the one looked up. *)
Theorem engine_construction_last_wins (ts : list StateTransition) :
  ∃ self, WorkflowEngine_new ts = Return self
          ∧ ∀ k, Py.dict_get k (transitions self)
                 = last (filter (fun tr => catalog_key tr = k) ts).
Proof.
  exists (WorkflowEngine_init ts). split; [done |].
  intros k. unfold WorkflowEngine_init. simpl. rewrite dict_of_get.
  by destruct (last _).
Qed.

(** C7, counterexample. A list with two definitions of (DRAFT, SUBMITTED) is
    accepted, and a request is answered from the second one. *)
Lemma duplicate_pair_not_rejected :
  catalog_key Sample.strict = catalog_key Sample.lax
  ∧ Sample.strict ≠ Sample.lax
  ∧ WorkflowEngine_new Sample.duplicated
    = Return {| transitions := [((DRAFT, SUBMITTED), Sample.lax)] |}
  ∧ (∀ e, WorkflowEngine_new Sample.duplicated ≠ Raise e)
  ∧ can_transition state_value (WorkflowEngine_init Sample.duplicated)
      DRAFT SUBMITTED ∅ "api_client" = (true, None).
Proof. split_and!; try done. Qed.

(** ** [WorkflowService.advance_workflow] *)

(** States from which the automatic selection never moves. *)
Lemma determine_next_state_stays (application : KYCApplication)
    (verification_results : option (gmap string float)) :
  status application ∈ [DRAFT; MANUAL_REVIEW; APPROVED; REJECTED; EXPIRED] →
  _determine_next_state application verification_results = status application.
Proof.
  unfold _determine_next_state. intros Hin.
  destruct (status application); try done;
    repeat (apply elem_of_cons in Hin as [?|Hin]; [done |]);
    by apply elem_of_nil in Hin.
Qed.

(** In FACE_VERIFICATION the selection reads the stored overall score only:
    two non-empty payloads select the same state. *)
Lemma determine_next_state_face_ignores_payload (application : KYCApplication)
    (r1 r2 : gmap string float) :
  status application = FACE_VERIFICATION →
  size r1 ≠ 0 → size r2 ≠ 0 →
  _determine_next_state application (Some r1)
  = _determine_next_state application (Some r2).
Proof.
  intros Hst H1 H2. unfold _determine_next_state. rewrite Hst. simpl.
  by rewrite !(proj2 (Nat.eqb_neq _ _)).
Qed.

(** C8. When the selected next state is the current one (always so in DRAFT,
    MANUAL_REVIEW, APPROVED, REJECTED and EXPIRED), [advance_workflow] returns
    the application as stored and leaves the session as it was: no field is
    written and no audit entry is added. The outcome is the same whatever the
    engine holds, so the catalog is not consulted. *)
Theorem advance_workflow_noop (fmt_state : WorkflowState → string)
    (engine : WorkflowEngine) (w : World)
    (application_id : N) (application : KYCApplication)
    (verification_results : option (gmap string float)) :
  apps w !! application_id = Some application →
  (_determine_next_state application verification_results = status application
   ∨ status application ∈ [DRAFT; MANUAL_REVIEW; APPROVED; REJECTED; EXPIRED]) →
  advance_workflow fmt_state engine
    application_id verification_results w
  = (Return application, w).
Proof.
  intros Hfound Hstay.
  assert (_determine_next_state application verification_results
          = status application) as Hsame.
  { destruct Hstay as [?|?]; [done | by apply determine_next_state_stays]. }
  unfold advance_workflow, bind, get_by_id. rewrite Hfound.
  by rewrite decide_True.
Qed.

Lemma advance_workflow_noop_witness :
  advance_workflow state_value (mkWorkflowEngine [])
    1 (Sample.payload 0.96)
    (Sample.world (Sample.application APPROVED None None (Some 0.4%float)))
  = (Return (Sample.application APPROVED None None (Some 0.4%float)),
     Sample.world (Sample.application APPROVED None None (Some 0.4%float))).
Proof.
  apply (advance_workflow_noop state_value
           (mkWorkflowEngine []) _ 1
           (Sample.application APPROVED None None (Some 0.4%float))).
  - reflexivity.
  - right. simpl. right; right; left.
Defined.

(** C2. When the engine refuses the selected move, [advance_workflow] raises
    INVALID_TRANSITION with the engine's reason and the session is exactly as
    before: neither the status nor any score has been written. *)
Theorem advance_workflow_disallowed_unchanged (fmt_state : WorkflowState → string)
    (engine : WorkflowEngine) (w : World)
    (application_id : N) (application : KYCApplication)
    (verification_results : option (gmap string float)) (reason : option string) :
  apps w !! application_id = Some application →
  _determine_next_state application verification_results ≠ status application →
  can_transition fmt_state engine (status application)
    (_determine_next_state application verification_results)
    (_build_transition_conditions (utcnow w) application verification_results)
    "system" = (false, reason) →
  advance_workflow fmt_state engine
    application_id verification_results w
  = (Raise (mkKYCException "INVALID_TRANSITION" reason), w).
Proof.
  intros Hfound Hmove Hcan.
  unfold advance_workflow, bind, get_by_id, now. rewrite Hfound.
  rewrite decide_False by done. simpl. by rewrite Hcan.
Qed.

Lemma advance_workflow_disallowed_unchanged_witness :
  advance_workflow state_value workflow_engine
    1 (Sample.payload 0.96)
    (Sample.world (Sample.application DOCUMENT_VERIFICATION None None None))
  = (Raise (mkKYCException "INVALID_TRANSITION"
              (Some "Required condition not met: low_confidence_score")),
     Sample.world (Sample.application DOCUMENT_VERIFICATION None None None)).
Proof.
  apply (advance_workflow_disallowed_unchanged state_value
           workflow_engine _ 1
           (Sample.application DOCUMENT_VERIFICATION None None None)).
  - reflexivity.
  - vm_compute. discriminate.
  - vm_compute. reflexivity.
Defined.

(** C3, at the failing input. In FACE_VERIFICATION with no overall score
    stored yet (or a stale low one) and a payload whose overall score is 0.96,
    the selection reads the stored score, picks REJECTED, and the engine then
    refuses that move because the payload's score does not make
    [failed_verification] true; the application stays in FACE_VERIFICATION. *)
Theorem advance_face_verification_reads_stored_score :
  _determine_next_state
    (Sample.application FACE_VERIFICATION None None None) (Sample.payload 0.96)
  = REJECTED
  ∧ advance_workflow state_value workflow_engine
      1 (Sample.payload 0.96)
      (Sample.world (Sample.application FACE_VERIFICATION None None None))
    = (Raise (mkKYCException "INVALID_TRANSITION"
                (Some "Required condition not met: failed_verification")),
       Sample.world (Sample.application FACE_VERIFICATION None None None))
  ∧ advance_workflow state_value workflow_engine
      1 (Sample.payload 0.96)
      (Sample.world (Sample.application FACE_VERIFICATION None None (Some 0.4%float)))
    = (Raise (mkKYCException "INVALID_TRANSITION"
                (Some "Required condition not met: failed_verification")),
       Sample.world (Sample.application FACE_VERIFICATION None None (Some 0.4%float))).
Proof. split_and!; vm_compute; reflexivity. Qed.

(** ** [KYCService.approve_application] and [reject_application] *)

(** Neither entry point asks the engine: a permitted role moves any stored
    application to the decision's state. *)
Lemma approve_application_sets_approved (w : World)
    (application_id : N) (application : KYCApplication) (user : User)
    (notes : option string) :
  apps w !! application_id = Some application →
  role user ∈ ["agent"; "supervisor"; "admin"] →
  status <$> (apps (approve_application
                      application_id user notes w).2 !! application_id)
  = Some APPROVED.
Proof.
  intros Hfound Hrole.
  unfold approve_application, bind, get_by_id, now, update_app, log_action,
    db_add_audit, ret, bind.
  rewrite Hfound. simpl. rewrite (bool_decide_eq_true_2 _ Hrole). simpl.
  rewrite lookup_alter_eq, Hfound. by destruct application.
Qed.

Lemma reject_application_sets_rejected (w : World)
    (application_id : N) (application : KYCApplication) (user : User)
    (reason : string) (notes : option string) :
  apps w !! application_id = Some application →
  role user ∈ ["agent"; "supervisor"; "admin"] →
  status <$> (apps (reject_application
                      application_id user reason notes w).2 !! application_id)
  = Some REJECTED.
Proof.
  intros Hfound Hrole.
  unfold reject_application, bind, get_by_id, now, update_app, log_action,
    db_add_audit, ret, bind.
  rewrite Hfound. simpl. rewrite (bool_decide_eq_true_2 _ Hrole). simpl.
  rewrite lookup_alter_eq, Hfound. by destruct application.
Qed.

(** C1, at the failing input. An agent approves a REJECTED application and it
    becomes APPROVED; an agent rejects an APPROVED one and it becomes REJECTED;
    an EXPIRED one is approved as well. *)
Theorem approve_reject_move_terminal_applications :
  status <$> (apps (approve_application 1 Sample.agent
                      (Some "second look")
                      (Sample.world (Sample.application REJECTED None None None))).2
              !! 1%N)
  = Some APPROVED
  ∧ status <$> (apps (reject_application 1 Sample.agent
                        "changed my mind" None
                        (Sample.world (Sample.application APPROVED None None None))).2
                !! 1%N)
    = Some REJECTED
  ∧ status <$> (apps (approve_application 1 Sample.agent None
                        (Sample.world (Sample.application EXPIRED None None None))).2
                !! 1%N)
    = Some APPROVED.
Proof. split_and!; vm_compute; reflexivity. Qed.

(** ** [KYCService.calculate_risk_score] *)

Lemma check_fraud_indicators_scores (w : World) (a : KYCApplication)
    (f : KYCApplication → KYCApplication) :
  ip_address (f a) = ip_address a →
  _check_fraud_indicators w (f a) = _check_fraud_indicators w a.
Proof. intros Hip. unfold _check_fraud_indicators. by rewrite Hip. Qed.

(** C4 (as the code has it). The divisor is the sum of all three weights,
    [1.0], whichever sub-scores are present; the fraud term is always present,
    so the [0.0] fallback is never taken; a document or face score counts only
    when it is present and not zero. *)
Theorem calculate_risk_score_fixed_divisor (w : World) (a : KYCApplication) :
  (calculate_risk_score w a).1
  = match Py.truthy_ofloat (document_verification_score a),
          Py.truthy_ofloat (face_verification_score a) with
    | true, true =>
        ((0 + default 0 (document_verification_score a) * 0.4
            + default 0 (face_verification_score a) * 0.4
            + _check_fraud_indicators w a * 0.2) / 1)%float
    | true, false =>
        ((0 + default 0 (document_verification_score a) * 0.4
            + _check_fraud_indicators w a * 0.2) / 1)%float
    | false, true =>
        ((0 + default 0 (face_verification_score a) * 0.4
            + _check_fraud_indicators w a * 0.2) / 1)%float
    | false, false => ((0 + _check_fraud_indicators w a * 0.2) / 1)%float
    end
  ∧ overall_confidence_score (calculate_risk_score w a).2
    = Some (calculate_risk_score w a).1
  ∧ risk_level (calculate_risk_score w a).2
    = Some (_determine_risk_level (calculate_risk_score w a).1).
Proof.
  split_and!; [| by destruct a | by destruct a].
  unfold calculate_risk_score, append_if_truthy, Py.truthy_ofloat. simpl.
  destruct (document_verification_score a) as [d|],
           (face_verification_score a) as [f|]; simpl;
    repeat (match goal with |- context [Py.truthy_float ?x] =>
              destruct (Py.truthy_float x) end; simpl);
    reflexivity.
Qed.

(** C4, counterexample. With only a document score of 0.8 and a clean fraud
    check the code returns 0.8·0.4 + 1.0·0.2 = 0.52, where the renormalised
    formula gives 0.8 with the fraud term left out; and with no document and
    no face score it returns 0.2, not 0.0. *)
Lemma risk_score_not_renormalized :
  (calculate_risk_score
     (Sample.world (Sample.application DOCUMENT_VERIFICATION (Some 0.8%float) None None))
     (Sample.application DOCUMENT_VERIFICATION (Some 0.8%float) None None)).1
  = 0.52%float
  ∧ PrimFloat.eqb 0.52 (spec_renormalized_score (Some 0.8%float) None None) = false
  ∧ PrimFloat.eqb 0.52
      (spec_renormalized_score (Some 0.8%float) None (Some 1.0%float)) = false
  ∧ (calculate_risk_score
       (Sample.world (Sample.application DOCUMENT_VERIFICATION None None None))
       (Sample.application DOCUMENT_VERIFICATION None None None)).1
    = 0.2%float
  ∧ spec_renormalized_score None None None = 0.0%float.
Proof. split_and!; vm_compute; reflexivity. Qed.

(** C10 (as the code has it). A document score (respectively a face score)
    equal to 0.0 is skipped like a missing one: the returned aggregate, the
    stored overall score and the risk tier are those of the same application
    without that score, and nothing else differs. Its weight is not dropped
    with it: the divisor is still the sum of all three weights. *)
Theorem zero_score_skipped_weight_kept (w : World) (a : KYCApplication) (z : float) :
  PrimFloat.eqb z 0 = true →
  (calculate_risk_score w (set_document_verification_score (Some z) a)
   = ((calculate_risk_score w (set_document_verification_score None a)).1,
      set_document_verification_score (Some z)
        (calculate_risk_score w (set_document_verification_score None a)).2)
   ∧ (calculate_risk_score w (set_document_verification_score (Some z) a)).1
     = (Py.sum (append_if_truthy (face_verification_score a) 0.4 []
                  ++ [_check_fraud_indicators w a * 0.2])
          / (0 + 0.4 + 0.4 + 0.2))%float)
  ∧ (calculate_risk_score w (set_face_verification_score (Some z) a)
     = ((calculate_risk_score w (set_face_verification_score None a)).1,
        set_face_verification_score (Some z)
          (calculate_risk_score w (set_face_verification_score None a)).2)
     ∧ (calculate_risk_score w (set_face_verification_score (Some z) a)).1
       = (Py.sum (append_if_truthy (document_verification_score a) 0.4 []
                    ++ [_check_fraud_indicators w a * 0.2])
            / (0 + 0.4 + 0.4 + 0.2))%float).
Proof.
  intros Hz. unfold calculate_risk_score, append_if_truthy, Py.truthy_float.
  split.
  - rewrite (check_fraud_indicators_scores w a
               (set_document_verification_score (Some z))) by by destruct a.
    rewrite (check_fraud_indicators_scores w a
               (set_document_verification_score None)) by by destruct a.
    destruct a as [? ? ? ? ? ? ? ? ? fs ? ? ? ? ? ? ? ? ? ? ?]; simpl.
    rewrite Hz. simpl. split; [done |].
    destruct fs as [f|]; [destruct (negb (PrimFloat.eqb f 0)) |]; reflexivity.
  - rewrite (check_fraud_indicators_scores w a
               (set_face_verification_score (Some z))) by by destruct a.
    rewrite (check_fraud_indicators_scores w a
               (set_face_verification_score None)) by by destruct a.
    destruct a as [? ? ? ? ? ? ? ? ds ? ? ? ? ? ? ? ? ? ? ? ?]; simpl.
    rewrite Hz. simpl. split; [done |].
    destruct ds as [d|]; [destruct (negb (PrimFloat.eqb d 0)) |]; reflexivity.
Qed.

Lemma zero_score_skipped_weight_kept_witness :
  calculate_risk_score
    (Sample.world (Sample.application DOCUMENT_VERIFICATION None (Some 0.9%float) None))
    (set_document_verification_score (Some 0%float)
       (Sample.application DOCUMENT_VERIFICATION None (Some 0.9%float) None))
  = ((calculate_risk_score
        (Sample.world (Sample.application DOCUMENT_VERIFICATION None (Some 0.9%float) None))
        (set_document_verification_score None
           (Sample.application DOCUMENT_VERIFICATION None (Some 0.9%float) None))).1,
     set_document_verification_score (Some 0%float)
       (calculate_risk_score
          (Sample.world (Sample.application DOCUMENT_VERIFICATION None (Some 0.9%float) None))
          (set_document_verification_score None
             (Sample.application DOCUMENT_VERIFICATION None (Some 0.9%float) None))).2)
  ∧ (calculate_risk_score
       (Sample.world (Sample.application DOCUMENT_VERIFICATION None (Some 0.9%float) None))
       (set_document_verification_score (Some 0%float)
          (Sample.application DOCUMENT_VERIFICATION None (Some 0.9%float) None))).1
    = (Py.sum (append_if_truthy
                 (face_verification_score
                    (Sample.application DOCUMENT_VERIFICATION None (Some 0.9%float) None))
                 0.4 []
               ++ [_check_fraud_indicators
                     (Sample.world
                        (Sample.application DOCUMENT_VERIFICATION None
                           (Some 0.9%float) None))
                     (Sample.application DOCUMENT_VERIFICATION None (Some 0.9%float) None)
                   * 0.2])
         / (0 + 0.4 + 0.4 + 0.2))%float.
Proof.
  apply (zero_score_skipped_weight_kept
           (Sample.world (Sample.application DOCUMENT_VERIFICATION None (Some 0.9%float) None))
           (Sample.application DOCUMENT_VERIFICATION None (Some 0.9%float) None)
           0%float).
  reflexivity.
Defined.

(** C10, counterexample. With a document score of 0.0, a face score of 0.9
    and a clean fraud check the code returns (0.9·0.4 + 1.0·0.2) / 1.0 = 0.56:
    the document weight is still in the divisor. Were the weight left out
    with the value, as for a sub-score that is absent in the specification's
    formula, the aggregate would be 0.56 / 0.6 = 0.9333. *)
Lemma zero_score_weight_still_counted :
  (calculate_risk_score
     (Sample.world
        (Sample.application DOCUMENT_VERIFICATION (Some 0%float) (Some 0.9%float) None))
     (Sample.application DOCUMENT_VERIFICATION (Some 0%float) (Some 0.9%float) None)).1
  = 0.56000000000000005%float
  ∧ spec_renormalized_score None (Some 0.9%float) (Some 1%float)
    = 0.93333333333333324%float
  ∧ PrimFloat.eqb 0.56000000000000005 0.93333333333333324 = false.
Proof. split_and!; vm_compute; reflexivity. Qed.

(** ** The catalog on the specification's sample requests *)

Example submit_allowed_for_api_client :
  can_transition state_value workflow_engine DRAFT SUBMITTED
    {[ "has_required_documents" := true; "has_customer_data" := true ]} "api_client"
  = (true, None).
Proof. vm_compute. reflexivity. Qed.

Example submit_denied_for_auditor :
  can_transition state_value workflow_engine DRAFT SUBMITTED
    {[ "has_required_documents" := true; "has_customer_data" := true ]} "auditor"
  = (false, Some "Role auditor not allowed for this transition").
Proof. vm_compute. reflexivity. Qed.

(** When the stored overall score already agrees with the payload, the move
    to APPROVED is committed; the audit call that follows fails on the
    undeclared setting, so the call raises and no audit entry is written. *)
Example advance_face_approved_with_matching_stored_score :
  status <$> (apps (advance_workflow state_value workflow_engine
                      1 (Sample.payload 0.96)
                      (Sample.world
                         (Sample.application FACE_VERIFICATION None None
                            (Some 0.96%float)))).2 !! 1%N)
  = Some APPROVED
  ∧ (advance_workflow state_value workflow_engine
       1 (Sample.payload 0.96)
       (Sample.world
          (Sample.application FACE_VERIFICATION None None (Some 0.96%float)))).1
    = Error (AttributeError "Settings" "AUDIT_LOG_RETENTION_DAYS")
  ∧ audit_logs
      (advance_workflow state_value workflow_engine
         1 (Sample.payload 0.96)
         (Sample.world
            (Sample.application FACE_VERIFICATION None None (Some 0.96%float)))).2
    = [].
Proof. split_and!; vm_compute; reflexivity. Qed.

(** * Further properties of the code *)

(** ** The engine's answers *)

(** X1. A refusal always carries a reason and an approval never does. *)
Theorem can_transition_reason_iff_refused (fmt_state : WorkflowState → string)
    (self : WorkflowEngine) (f t : WorkflowState)
    (conditions : gmap string bool) (user_role : string) :
  ((can_transition fmt_state self f t conditions user_role).1 = false
   ↔ is_Some (can_transition fmt_state self f t conditions user_role).2)
  ∧ ((can_transition fmt_state self f t conditions user_role).1 = true
     ↔ (can_transition fmt_state self f t conditions user_role).2 = None).
Proof.
  unfold can_transition.
  destruct (Py.dict_get (f, t) (transitions self)) as [tr|]; simpl;
    [destruct (bool_decide (user_role ∈ allowed_roles tr)); simpl;
     [destruct (first_unmet conditions (required_conditions tr)); simpl | ] | ];
    repeat split; first [done | by eexists | by intros [? ?]].
Qed.

(** X2. The role is checked before any condition: a role that the entry
    does not list is refused with the role message, whatever the conditions. *)
Theorem can_transition_role_checked_first (fmt_state : WorkflowState → string)
    (self : WorkflowEngine) (f t : WorkflowState) (tr : StateTransition)
    (conditions : gmap string bool) (user_role : string) :
  Py.dict_get (f, t) (transitions self) = Some tr →
  user_role ∉ allowed_roles tr →
  can_transition fmt_state self f t conditions user_role
  = (false, Some ("Role " +:+ user_role +:+ " not allowed for this transition")).
Proof.
  intros Hget Hrole. unfold can_transition. rewrite Hget.
  by rewrite (bool_decide_eq_false_2 _ Hrole).
Qed.

Lemma can_transition_role_checked_first_witness :
  can_transition state_value workflow_engine MANUAL_REVIEW APPROVED
    {[ "agent_approved" := true ]} "admin"
  = (false, Some "Role admin not allowed for this transition").
Proof.
  apply (can_transition_role_checked_first state_value workflow_engine
           MANUAL_REVIEW APPROVED
           (mkStateTransition MANUAL_REVIEW APPROVED
              ["agent_approved"] ["agent"; "supervisor"])).
  - reflexivity.
  - by apply (bool_decide_unpack _).
Defined.

Lemma first_unmet_prefix (conditions : gmap string bool)
    (pre post : list string) (c : string) :
  Forall (fun c0 => conditions !! c0 = Some true) pre →
  conditions !! c ≠ Some true →
  first_unmet conditions (pre ++ c :: post) = Some c.
Proof.
  intros Hpre Hc. induction Hpre as [|c0 pre Hc0 _ IH]; simpl.
  - by destruct (conditions !! c) as [[|]|].
  - by rewrite Hc0.
Qed.

(** X3. For a permitted role the reason names the first required condition,
    in the entry's order, that the map does not make true. *)
Theorem can_transition_reports_first_unmet (fmt_state : WorkflowState → string)
    (self : WorkflowEngine) (f t : WorkflowState) (tr : StateTransition)
    (conditions : gmap string bool) (user_role : string)
    (pre post : list string) (c : string) :
  Py.dict_get (f, t) (transitions self) = Some tr →
  user_role ∈ allowed_roles tr →
  required_conditions tr = (pre ++ c :: post)%list →
  Forall (fun c0 => conditions !! c0 = Some true) pre →
  conditions !! c ≠ Some true →
  can_transition fmt_state self f t conditions user_role
  = (false, Some ("Required condition not met: " +:+ c)).
Proof.
  intros Hget Hrole Hreq Hpre Hc. unfold can_transition. rewrite Hget.
  rewrite (bool_decide_eq_true_2 _ Hrole). simpl.
  by rewrite Hreq, (first_unmet_prefix _ _ _ _ Hpre Hc).
Qed.

Lemma can_transition_reports_first_unmet_witness :
  can_transition state_value workflow_engine FACE_VERIFICATION APPROVED
    {[ "high_confidence_score" := true; "all_checks_passed" := false ]} "system"
  = (false, Some "Required condition not met: all_checks_passed").
Proof.
  apply (can_transition_reports_first_unmet state_value workflow_engine
           FACE_VERIFICATION APPROVED
           (mkStateTransition FACE_VERIFICATION APPROVED
              ["high_confidence_score"; "all_checks_passed"] ["system"])
           _ "system" ["high_confidence_score"] [] "all_checks_passed").
  - reflexivity.
  - by apply (bool_decide_unpack _).
  - reflexivity.
  - constructor; [reflexivity | constructor].
  - vm_compute. discriminate.
Defined.

(** X4. Making more conditions true never turns an approval into a refusal. *)
Theorem can_transition_monotone (fmt_state : WorkflowState → string)
    (self : WorkflowEngine) (f t : WorkflowState)
    (conditions conditions' : gmap string bool) (user_role : string) :
  can_transition fmt_state self f t conditions user_role = (true, None) →
  (∀ c, conditions !! c = Some true → conditions' !! c = Some true) →
  can_transition fmt_state self f t conditions' user_role = (true, None).
Proof.
  unfold can_transition. intros Hcan Hsub.
  destruct (Py.dict_get (f, t) (transitions self)) as [tr|]; [| done].
  destruct (bool_decide (user_role ∈ allowed_roles tr)); simpl in *; [| done].
  destruct (first_unmet conditions (required_conditions tr)) eqn:Hc; [done |].
  apply first_unmet_None in Hc.
  assert (first_unmet conditions' (required_conditions tr) = None) as ->; [| done].
  apply first_unmet_None. eapply Forall_impl; [exact Hc | exact Hsub].
Qed.

Lemma can_transition_monotone_witness :
  can_transition state_value workflow_engine SUBMITTED DOCUMENT_VERIFICATION
    {[ "documents_uploaded" := true; "documents_verified" := true ]} "system"
  = (true, None).
Proof.
  apply (can_transition_monotone state_value workflow_engine
           SUBMITTED DOCUMENT_VERIFICATION {[ "documents_uploaded" := true ]}).
  - reflexivity.
  - intros c Hc. apply lookup_singleton_Some in Hc as [<- _]. reflexivity.
Defined.

(** X5. In the shipped catalog nothing leaves APPROVED, REJECTED or EXPIRED:
    no next state is listed, and every request from such a state is refused
    for every target, role and condition map. *)
Theorem terminal_states_have_no_transition (fmt_state : WorkflowState → string)
    (s t : WorkflowState) (conditions : gmap string bool) (user_role : string) :
  s ∈ [APPROVED; REJECTED; EXPIRED] →
  get_next_states workflow_engine s = []
  ∧ can_transition fmt_state workflow_engine s t conditions user_role
    = (false, Some ("No transition defined from " +:+ fmt_state s
                      +:+ " to " +:+ fmt_state t)).
Proof.
  intros Hs.
  repeat (apply elem_of_cons in Hs as [->|Hs]); [| | | by apply elem_of_nil in Hs];
    (split; [reflexivity | by destruct t]).
Qed.

Lemma terminal_states_have_no_transition_witness :
  get_next_states workflow_engine REJECTED = []
  ∧ can_transition state_value workflow_engine REJECTED APPROVED
      {[ "agent_approved" := true ]} "supervisor"
    = (false, Some "No transition defined from rejected to approved").
Proof.
  apply (terminal_states_have_no_transition state_value REJECTED APPROVED).
  by apply (bool_decide_unpack _).
Defined.

(** ** A catalog without repeated pairs *)

Section unique_keys.
Context {K V : Type} `{EqDecision K}.

Lemma filter_none (P : V → Prop) `{!∀ x, Decision (P x)} (l : list V) :
  (∀ x, x ∈ l → ¬ P x) → filter P l = [].
Proof.
  induction l as [|a l IH]; intros Hl; [done |].
  rewrite filter_cons_False by (apply Hl; left).
  apply IH. intros x Hx. apply Hl. by right.
Qed.

Lemma filter_key_singleton (key : V → K) (l : list V) (x : V) :
  NoDup (key <$> l) → x ∈ l → filter (fun y => key y = key x) l = [x].
Proof.
  induction l as [|a l IH]; csimpl; intros Hnd Hx; [by apply elem_of_nil in Hx |].
  apply NoDup_cons in Hnd as [Ha Hnd].
  apply elem_of_cons in Hx as [->|Hx].
  - rewrite filter_cons_True by done. f_equal.
    apply filter_none. intros y Hy Hk. apply Ha. rewrite <- Hk.
    by apply list_elem_of_fmap_2.
  - rewrite filter_cons_False; [by apply IH |].
    intros Hk. apply Ha. rewrite Hk. by apply list_elem_of_fmap_2.
Qed.

Lemma foldl_dict_set_keys (key : V → K) (d : list (K * V)) (vs : list V) :
  NoDup (Py.dict_keys d ++ (key <$> vs)) →
  Py.dict_keys (foldl (fun d0 v0 => Py.dict_set (key v0) v0 d0) d vs)
  = (Py.dict_keys d ++ (key <$> vs))%list.
Proof.
  revert d. induction vs as [|v vs IH]; intros d Hnd; csimpl.
  - by rewrite app_nil_r.
  - assert (key v ∉ Py.dict_keys d) as Hv.
    { apply NoDup_app in Hnd as (_ & Hdisj & _). intros Hin.
      apply (Hdisj _ Hin). left. }
    assert (Py.dict_keys (Py.dict_set (key v) v d)
            = (Py.dict_keys d ++ [key v])%list) as Hk.
    { rewrite dict_keys_set. by rewrite decide_False. }
    rewrite IH; rewrite Hk, <- app_assoc; done.
Qed.
End unique_keys.

Lemma next_states_of_keys (ts : list StateTransition) (s : WorkflowState) :
  snd <$> filter (fun k => k.1 = s) (catalog_key <$> ts)
  = to_state <$> filter (fun tr => from_state tr = s) ts.
Proof.
  induction ts as [|tr ts IH]; csimpl; [done |].
  rewrite !filter_cons. simpl.
  destruct (decide (from_state tr = s)); csimpl; by rewrite IH.
Qed.

(** X6. When the transition list defines no pair twice, the engine holds
    the listed transitions in the listed order, and looking up the pair of a
    listed transition gives that transition back. *)
Theorem engine_holds_listed_transitions (ts : list StateTransition) :
  NoDup (catalog_key <$> ts) →
  Py.dict_keys (transitions (WorkflowEngine_init ts)) = catalog_key <$> ts
  ∧ ∀ tr, tr ∈ ts →
          Py.dict_get (catalog_key tr) (transitions (WorkflowEngine_init ts)) = Some tr.
Proof.
  intros Hnd. unfold WorkflowEngine_init. simpl. split.
  - by rewrite foldl_dict_set_keys.
  - intros tr Hin. rewrite dict_of_get.
    by rewrite (filter_key_singleton catalog_key ts tr Hnd Hin).
Qed.

Lemma engine_holds_listed_transitions_witness :
  Py.dict_keys (transitions (WorkflowEngine_init WORKFLOW_TRANSITIONS))
  = catalog_key <$> WORKFLOW_TRANSITIONS
  ∧ ∀ tr, tr ∈ WORKFLOW_TRANSITIONS →
          Py.dict_get (catalog_key tr)
            (transitions (WorkflowEngine_init WORKFLOW_TRANSITIONS)) = Some tr.
Proof.
  apply (engine_holds_listed_transitions WORKFLOW_TRANSITIONS).
  by apply (bool_decide_unpack _).
Defined.

(** X7. With no repeated pair, [get_next_states s] is the list of targets of
    the transitions out of [s], in the order the catalog lists them. *)
Theorem get_next_states_in_catalog_order (ts : list StateTransition)
    (s : WorkflowState) :
  NoDup (catalog_key <$> ts) →
  get_next_states (WorkflowEngine_init ts) s
  = to_state <$> filter (fun tr => from_state tr = s) ts.
Proof.
  intros Hnd. unfold get_next_states, WorkflowEngine_init. simpl.
  rewrite foldl_dict_set_keys by done. simpl. apply next_states_of_keys.
Qed.

Lemma get_next_states_in_catalog_order_witness :
  get_next_states (WorkflowEngine_init WORKFLOW_TRANSITIONS) DOCUMENT_VERIFICATION
  = to_state <$> filter (fun tr => from_state tr = DOCUMENT_VERIFICATION)
                        WORKFLOW_TRANSITIONS.
Proof.
  apply (get_next_states_in_catalog_order WORKFLOW_TRANSITIONS DOCUMENT_VERIFICATION).
  by apply (bool_decide_unpack _).
Defined.

(** ** [WorkflowService]: conditions and score updates *)

Lemma conditions_documents_uploaded (utc : Z) (a : KYCApplication)
    (vr : option (gmap string float)) :
  _build_transition_conditions utc a vr !! "documents_uploaded"
  = Some (Nat.ltb 0 (length (documents a))).
Proof.
  unfold _build_transition_conditions. by destruct (nonempty_payload vr).
Qed.

Lemma conditions_all_checks_passed (utc : Z) (a : KYCApplication)
    (vr : option (gmap string float)) :
  _build_transition_conditions utc a vr !! "all_checks_passed"
  = Some (_all_checks_passed a vr).
Proof.
  unfold _build_transition_conditions. by destruct (nonempty_payload vr).
Qed.

Lemma conditions_high_confidence_score (utc : Z) (a : KYCApplication)
    (vr : option (gmap string float)) :
  _build_transition_conditions utc a vr !! "high_confidence_score"
  = Some match nonempty_payload vr with
         | Some results =>
             (AUTO_APPROVE_THRESHOLD
                <=? default 0 (results !! "overall_confidence_score"))%float
         | None => false
         end.
Proof.
  unfold _build_transition_conditions. by destruct (nonempty_payload vr).
Qed.

Lemma all_checks_passed_true (a : KYCApplication) (vr : option (gmap string float)) :
  _all_checks_passed a vr = true →
  is_Some (nonempty_payload vr)
  ∧ verifications a ≠ []
  ∧ Forall (fun v => result v = PASS) (verifications a).
Proof.
  unfold _all_checks_passed.
  destruct (nonempty_payload vr); [| done].
  destruct (verifications a) as [|v vs] eqn:Hvs; [done |]. intros Hall.
  split_and!; [by eexists | done |].
  apply Forall_forall. intros x Hx%list_elem_of_In.
  eapply forallb_forall in Hall; [| exact Hx]. by apply bool_decide_eq_true in Hall.
Qed.

(** X8. [_update_verification_scores] overwrites exactly the scores whose
    key the payload holds and keeps the others; it never touches the
    status, the risk tier, the documents or the verification records; and
    applying the same payload again changes nothing. *)
Theorem update_verification_scores_effect (results : gmap string float)
    (a : KYCApplication) :
  document_verification_score (_update_verification_scores results a)
  = from_option Some (document_verification_score a)
      (results !! "document_verification_score")
  ∧ face_verification_score (_update_verification_scores results a)
    = from_option Some (face_verification_score a)
        (results !! "face_verification_score")
  ∧ overall_confidence_score (_update_verification_scores results a)
    = from_option Some (overall_confidence_score a)
        (results !! "overall_confidence_score")
  ∧ risk_score (_update_verification_scores results a)
    = from_option Some (risk_score a) (results !! "risk_score")
  ∧ status (_update_verification_scores results a) = status a
  ∧ risk_level (_update_verification_scores results a) = risk_level a
  ∧ documents (_update_verification_scores results a) = documents a
  ∧ verifications (_update_verification_scores results a) = verifications a
  ∧ _update_verification_scores results (_update_verification_scores results a)
    = _update_verification_scores results a.
Proof.
  unfold _update_verification_scores, copy_score.
  destruct (results !! "document_verification_score"),
           (results !! "face_verification_score"),
           (results !! "overall_confidence_score"),
           (results !! "risk_score"), a; simpl; by split_and!.
Qed.

(** X9. Whatever the application and the payload, the condition map names
    the same ten conditions; [agent_approved] and [agent_rejected] are never
    among them. *)
Theorem build_transition_conditions_names (utc : Z) (a : KYCApplication)
    (vr : option (gmap string float)) :
  dom (_build_transition_conditions utc a vr)
  = list_to_set
      [ "has_required_documents"; "has_customer_data"; "documents_uploaded";
        "documents_verified"; "all_checks_passed"; "application_expired";
        "high_confidence_score"; "medium_confidence_score";
        "low_confidence_score"; "failed_verification" ]
  ∧ _build_transition_conditions utc a vr !! "agent_approved" = None
  ∧ _build_transition_conditions utc a vr !! "agent_rejected" = None.
Proof.
  unfold _build_transition_conditions.
  destruct (nonempty_payload vr); (split_and!; [| done | done]);
    rewrite !dom_insert_L, dom_singleton_L; simpl; set_solver.
Qed.

(** ** [WorkflowService.advance_workflow]: every outcome *)

Lemma alter_Some {A} (f : A → A) (m : gmap N A) (i : N) (x : A) :
  m !! i = Some x → alter f i m = <[i := f x]> m.
Proof.
  intros Hx. rewrite <- (insert_id m i x Hx) at 1. apply alter_insert_eq.
Qed.

Lemma advance_workflow_allowed (fmt_state : WorkflowState → string)
    (engine : WorkflowEngine) (w : World)
    (application_id : N) (a : KYCApplication)
    (vr : option (gmap string float)) (reason : option string) :
  apps w !! application_id = Some a →
  _determine_next_state a vr ≠ status a →
  can_transition fmt_state engine (status a) (_determine_next_state a vr)
    (_build_transition_conditions (utcnow w) a vr) "system" = (true, reason) →
  advance_workflow fmt_state engine application_id vr w
  = (Error (AttributeError "Settings" "AUDIT_LOG_RETENTION_DAYS"),
     {| apps := <[application_id := moved (_determine_next_state a vr) vr a]> (apps w);
        audit_logs := audit_logs w;
        utcnow := utcnow w |}).
Proof.
  intros Hfound Hmove Hcan.
  unfold advance_workflow, bind, get_by_id, now. rewrite Hfound.
  rewrite decide_False by done. simpl. rewrite Hcan. simpl.
  unfold moved, update_app, log_action, settings_int, error, bind, now, ret.
  destruct (nonempty_payload vr) as [results|]; simpl.
  - rewrite (alter_Some _ _ _ _ Hfound). by rewrite alter_insert_eq.
  - by rewrite (alter_Some _ _ _ _ Hfound).
Qed.

Lemma update_verification_scores_status (results : gmap string float)
    (a : KYCApplication) :
  status (_update_verification_scores results a) = status a.
Proof.
  unfold _update_verification_scores, copy_score.
  by destruct (results !! "document_verification_score"),
              (results !! "face_verification_score"),
              (results !! "overall_confidence_score"),
              (results !! "risk_score"), a.
Qed.

Lemma moved_status (next_state : KYCStatus) (vr : option (gmap string float))
    (a : KYCApplication) :
  status (moved next_state vr a) = next_state.
Proof.
  unfold moved. destruct (nonempty_payload vr) as [results|].
  - rewrite update_verification_scores_status. by destruct a.
  - by destruct a.
Qed.

(** The stored status after a call, whatever its outcome. *)
Lemma advance_workflow_status (fmt_state : WorkflowState → string)
    (engine : WorkflowEngine) (w : World)
    (application_id : N) (a : KYCApplication) (vr : option (gmap string float)) :
  apps w !! application_id = Some a →
  status <$> (apps (advance_workflow fmt_state engine
                      application_id vr w).2 !! application_id)
  = Some (if (can_transition fmt_state engine (status a) (_determine_next_state a vr)
                (_build_transition_conditions (utcnow w) a vr) "system").1
          then _determine_next_state a vr else status a).
Proof.
  intros Hfound.
  destruct (decide (_determine_next_state a vr = status a)) as [Hsame|Hmove].
  - rewrite Hsame.
    unfold advance_workflow, bind, get_by_id. rewrite Hfound.
    rewrite Hsame, decide_True by done. simpl. rewrite Hfound. simpl.
    by destruct (can_transition _ _ _ _ _ _).1.
  - destruct (can_transition fmt_state engine (status a) (_determine_next_state a vr)
                (_build_transition_conditions (utcnow w) a vr) "system")
      as [[|] reason] eqn:Hcan; simpl.
    + rewrite (advance_workflow_allowed _ _ _ _ _ _ _ Hfound Hmove Hcan). simpl.
      rewrite lookup_insert_eq. simpl. by rewrite moved_status.
    + unfold advance_workflow, bind, get_by_id, now. rewrite Hfound.
      rewrite decide_False by done. simpl. rewrite Hcan. simpl.
      by rewrite Hfound.
Qed.

Lemma determine_next_state_range (a : KYCApplication)
    (vr : option (gmap string float)) :
  _determine_next_state a vr = status a
  ∨ _determine_next_state a vr
    ∈ [DOCUMENT_VERIFICATION; FACE_VERIFICATION; MANUAL_REVIEW; APPROVED; REJECTED].
Proof.
  unfold _determine_next_state.
  destruct (status a); try (by left);
    destruct (nonempty_payload vr); try (by left);
    repeat match goal with |- context [if ?b then _ else _] => destruct b end;
    right; by apply (bool_decide_unpack _).
Qed.

(** X10. Without a payload ([None] or an empty dict) only a SUBMITTED
    application moves: in every other state the call returns the stored
    application and changes nothing, whatever the engine holds. *)
Theorem advance_workflow_without_payload (fmt_state : WorkflowState → string)
    (engine : WorkflowEngine) (w : World)
    (application_id : N) (a : KYCApplication) (vr : option (gmap string float)) :
  apps w !! application_id = Some a →
  status a ≠ SUBMITTED →
  nonempty_payload vr = None →
  advance_workflow fmt_state engine application_id vr w
  = (Return a, w).
Proof.
  intros Hfound Hst Hvr.
  assert (_determine_next_state a vr = status a) as Hsame.
  { unfold _determine_next_state. rewrite Hvr. by destruct (status a). }
  unfold advance_workflow, bind, get_by_id. rewrite Hfound.
  by rewrite decide_True.
Qed.

Lemma advance_workflow_without_payload_witness :
  advance_workflow state_value workflow_engine 1 (Some ∅)
    (Sample.world (Sample.application FACE_VERIFICATION None None (Some 0.99%float)))
  = (Return (Sample.application FACE_VERIFICATION None None (Some 0.99%float)),
     Sample.world (Sample.application FACE_VERIFICATION None None (Some 0.99%float))).
Proof.
  apply (advance_workflow_without_payload state_value
           workflow_engine _ 1
           (Sample.application FACE_VERIFICATION None None (Some 0.99%float))).
  - reflexivity.
  - discriminate.
  - reflexivity.
Defined.

(** X11. An allowed move is committed before the audit call: the new status
    and the payload's scores are stored under the same key and every other
    application is as before. The audit call then fails on the setting
    [AUDIT_LOG_RETENTION_DAYS], which the configuration does not declare, so
    the call raises instead of returning the application and no audit entry
    is written. *)
Theorem advance_workflow_commits_then_fails (fmt_state : WorkflowState → string)
    (engine : WorkflowEngine) (w : World)
    (application_id : N) (a : KYCApplication)
    (vr : option (gmap string float)) (reason : option string) :
  apps w !! application_id = Some a →
  _determine_next_state a vr ≠ status a →
  can_transition fmt_state engine (status a) (_determine_next_state a vr)
    (_build_transition_conditions (utcnow w) a vr) "system" = (true, reason) →
  (advance_workflow fmt_state engine application_id vr w).1
  = Error (AttributeError "Settings" "AUDIT_LOG_RETENTION_DAYS")
  ∧ status (moved (_determine_next_state a vr) vr a) = _determine_next_state a vr
  ∧ apps (advance_workflow fmt_state engine
            application_id vr w).2 !! application_id
    = Some (moved (_determine_next_state a vr) vr a)
  ∧ (∀ j, j ≠ application_id →
          apps (advance_workflow fmt_state engine
                  application_id vr w).2 !! j = apps w !! j)
  ∧ audit_logs (advance_workflow fmt_state engine
                  application_id vr w).2
    = audit_logs w.
Proof.
  intros Hfound Hmove Hcan.
  rewrite (advance_workflow_allowed _ _ _ _ _ _ _ Hfound Hmove Hcan). simpl.
  split_and!; [done | apply moved_status | apply lookup_insert_eq | | done].
  intros j Hj. by apply lookup_insert_ne.
Qed.

Lemma advance_workflow_commits_then_fails_witness :
  (advance_workflow state_value workflow_engine 1
     (Sample.payload 0.96)
     (Sample.world (Sample.application FACE_VERIFICATION None None (Some 0.96%float)))).1
  = Error (AttributeError "Settings" "AUDIT_LOG_RETENTION_DAYS").
Proof.
  apply (advance_workflow_commits_then_fails state_value
           workflow_engine
           (Sample.world (Sample.application FACE_VERIFICATION None None (Some 0.96%float)))
           1 (Sample.application FACE_VERIFICATION None None (Some 0.96%float))
           (Sample.payload 0.96) None).
  - reflexivity.
  - vm_compute. discriminate.
  - vm_compute. reflexivity.
Defined.

(** X12. With the shipped catalog a SUBMITTED application with at least one
    document is stored as DOCUMENT_VERIFICATION, with or without a payload,
    and the call then fails in the audit step without writing an entry; with
    no document the call raises INVALID_TRANSITION and changes nothing. *)
Theorem advance_workflow_from_submitted (fmt_state : WorkflowState → string)
    (w : World)
    (application_id : N) (a : KYCApplication) (vr : option (gmap string float)) :
  apps w !! application_id = Some a →
  status a = SUBMITTED →
  advance_workflow fmt_state workflow_engine
    application_id vr w
  = if Nat.ltb 0 (length (documents a))
    then (Error (AttributeError "Settings" "AUDIT_LOG_RETENTION_DAYS"),
          {| apps := <[application_id := moved DOCUMENT_VERIFICATION vr a]> (apps w);
             audit_logs := audit_logs w;
             utcnow := utcnow w |})
    else (Raise (mkKYCException "INVALID_TRANSITION"
                   (Some "Required condition not met: documents_uploaded")), w).
Proof.
  intros Hfound Hst.
  assert (_determine_next_state a vr = DOCUMENT_VERIFICATION) as Hnext.
  { unfold _determine_next_state. by rewrite Hst. }
  assert (can_transition fmt_state workflow_engine (status a)
            (_determine_next_state a vr)
            (_build_transition_conditions (utcnow w) a vr) "system"
          = if Nat.ltb 0 (length (documents a)) then (true, None)
            else (false, Some "Required condition not met: documents_uploaded"))
    as Hcan.
  { rewrite Hnext, Hst. unfold can_transition. simpl.
    rewrite conditions_documents_uploaded. by destruct (Nat.ltb _ _). }
  assert (_determine_next_state a vr ≠ status a) as Hmove
    by (by rewrite Hnext, Hst).
  destruct (Nat.ltb 0 (length (documents a))).
  - rewrite (advance_workflow_allowed _ _ _ _ _ _ None Hfound Hmove Hcan).
    by rewrite Hnext.
  - unfold advance_workflow, bind, get_by_id, now. rewrite Hfound.
    rewrite decide_False by (by rewrite Hnext, Hst). simpl. by rewrite Hcan.
Qed.

Lemma advance_workflow_from_submitted_witness :
  advance_workflow state_value workflow_engine 1 None
    (Sample.world (Sample.application SUBMITTED None None None))
  = (Error (AttributeError "Settings" "AUDIT_LOG_RETENTION_DAYS"),
     {| apps := <[1%N := moved DOCUMENT_VERIFICATION None
                           (Sample.application SUBMITTED None None None)]>
                  (apps (Sample.world (Sample.application SUBMITTED None None None)));
        audit_logs := [];
        utcnow := 1700000600 |}).
Proof.
  apply (advance_workflow_from_submitted state_value
           (Sample.world (Sample.application SUBMITTED None None None)) 1
           (Sample.application SUBMITTED None None None) None).
  - reflexivity.
  - reflexivity.
Defined.

Lemma determine_next_state_approved (a : KYCApplication)
    (vr : option (gmap string float)) :
  _determine_next_state a vr = APPROVED →
  status a ≠ APPROVED →
  status a = FACE_VERIFICATION
  ∧ is_Some (nonempty_payload vr)
  ∧ (AUTO_APPROVE_THRESHOLD <=? or_zero (overall_confidence_score a))%float = true.
Proof.
  unfold _determine_next_state. intros Hnext Hst.
  destruct (status a) eqn:Hs; try done;
    destruct (nonempty_payload vr) as [results|]; try done.
  - by repeat match type of Hnext with
              | context [if ?b then _ else _] => destruct b
              end.
  - destruct (AUTO_APPROVE_THRESHOLD <=? or_zero (overall_confidence_score a))%float;
      [by split_and!; [| eexists |] |].
    by destruct (MANUAL_REVIEW_THRESHOLD <=? or_zero (overall_confidence_score a))%float.
Qed.

(** X13. With the shipped catalog, [advance_workflow] turns an application
    that was not APPROVED into an APPROVED one only from FACE_VERIFICATION,
    with a non-empty payload whose overall score reaches the auto-approve
    threshold, a stored overall score that reaches it too, and at least one
    verification record, all of them PASS. *)
Theorem auto_approval_requires_scores_and_checks
    (fmt_state : WorkflowState → string)
    (w : World) (application_id : N) (a : KYCApplication)
    (vr : option (gmap string float)) :
  apps w !! application_id = Some a →
  status a ≠ APPROVED →
  status <$> (apps (advance_workflow fmt_state
                      workflow_engine application_id vr w).2 !! application_id)
  = Some APPROVED →
  status a = FACE_VERIFICATION
  ∧ (∃ results, nonempty_payload vr = Some results
       ∧ (AUTO_APPROVE_THRESHOLD
            <=? default 0 (results !! "overall_confidence_score"))%float = true)
  ∧ (AUTO_APPROVE_THRESHOLD <=? or_zero (overall_confidence_score a))%float = true
  ∧ verifications a ≠ []
  ∧ Forall (fun v => result v = PASS) (verifications a).
Proof.
  intros Hfound Hst Hres.
  rewrite (advance_workflow_status _ _ _ _ _ _ Hfound) in Hres.
  destruct (can_transition fmt_state workflow_engine (status a)
              (_determine_next_state a vr)
              (_build_transition_conditions (utcnow w) a vr) "system")
    as [[|] reason] eqn:Hcan; simpl in Hres; [| congruence].
  injection Hres as Hnext.
  destruct (determine_next_state_approved a vr Hnext Hst) as (Hface & [results Hvr] & Hstored).
  rewrite Hnext, Hface in Hcan. unfold can_transition in Hcan. simpl in Hcan.
  rewrite conditions_high_confidence_score, conditions_all_checks_passed in Hcan.
  rewrite Hvr in Hcan. simpl in Hcan.
  destruct (AUTO_APPROVE_THRESHOLD
              <=? default 0 (results !! "overall_confidence_score"))%float eqn:Hhigh;
    simpl in Hcan; [| done].
  destruct (_all_checks_passed a vr) eqn:Hall; simpl in Hcan; [| done].
  apply all_checks_passed_true in Hall as (_ & Hne & Hpass).
  split_and!; [done | by exists results | done | done | done].
Qed.

Lemma auto_approval_requires_scores_and_checks_witness :
  status (Sample.application FACE_VERIFICATION None None (Some 0.96%float))
  = FACE_VERIFICATION
  ∧ (∃ results, nonempty_payload (Sample.payload 0.96) = Some results
       ∧ (AUTO_APPROVE_THRESHOLD
            <=? default 0 (results !! "overall_confidence_score"))%float = true)
  ∧ (AUTO_APPROVE_THRESHOLD
       <=? or_zero (overall_confidence_score
                      (Sample.application FACE_VERIFICATION None None
                         (Some 0.96%float))))%float = true
  ∧ verifications (Sample.application FACE_VERIFICATION None None (Some 0.96%float))
    ≠ []
  ∧ Forall (fun v => result v = PASS)
      (verifications (Sample.application FACE_VERIFICATION None None (Some 0.96%float))).
Proof.
  apply (auto_approval_requires_scores_and_checks state_value
           (Sample.world (Sample.application FACE_VERIFICATION None None (Some 0.96%float)))
           1 (Sample.application FACE_VERIFICATION None None (Some 0.96%float))
           (Sample.payload 0.96)).
  - reflexivity.
  - discriminate.
  - vm_compute. reflexivity.
Defined.

(** X14. Whatever the engine holds and whatever the outcome, the stored
    status after [advance_workflow] is the old one or one of
    DOCUMENT_VERIFICATION, FACE_VERIFICATION, MANUAL_REVIEW, APPROVED,
    REJECTED: the call never moves an application to DRAFT, SUBMITTED or
    EXPIRED. *)
Theorem advance_workflow_status_range (fmt_state : WorkflowState → string)
    (engine : WorkflowEngine) (w : World)
    (application_id : N) (a : KYCApplication) (vr : option (gmap string float)) :
  apps w !! application_id = Some a →
  ∃ s, status <$> (apps (advance_workflow fmt_state engine
                           application_id vr w).2 !! application_id) = Some s
       ∧ (s = status a
          ∨ s ∈ [DOCUMENT_VERIFICATION; FACE_VERIFICATION; MANUAL_REVIEW;
                 APPROVED; REJECTED]).
Proof.
  intros Hfound. eexists. split; [by apply advance_workflow_status |].
  destruct (can_transition _ _ _ _ _ _).1; [| by left].
  destruct (determine_next_state_range a vr) as [->|?]; [by left | by right].
Qed.

Lemma advance_workflow_status_range_witness :
  ∃ s, status <$> (apps (advance_workflow state_value
                           (WorkflowEngine_init
                              [mkStateTransition SUBMITTED DOCUMENT_VERIFICATION [] ["system"]])
                           1 None
                           (Sample.world (Sample.application SUBMITTED None None None))).2
                   !! 1%N) = Some s
       ∧ (s = status (Sample.application SUBMITTED None None None)
          ∨ s ∈ [DOCUMENT_VERIFICATION; FACE_VERIFICATION; MANUAL_REVIEW;
                 APPROVED; REJECTED]).
Proof.
  apply (advance_workflow_status_range state_value
           (WorkflowEngine_init
              [mkStateTransition SUBMITTED DOCUMENT_VERIFICATION [] ["system"]])
           (Sample.world (Sample.application SUBMITTED None None None)) 1
           (Sample.application SUBMITTED None None None) None).
  reflexivity.
Defined.

(** ** Failures that leave the session untouched *)

(** X15. On an identifier that no application has, [advance_workflow],
    [approve_application] and [reject_application] raise NOT_FOUND and change
    nothing; the role is not even looked at. *)
Theorem unknown_application_not_found (fmt_state : WorkflowState → string)
    (engine : WorkflowEngine) (w : World)
    (application_id : N) (vr : option (gmap string float)) (user : User)
    (reason : string) (notes : option string) :
  apps w !! application_id = None →
  advance_workflow fmt_state engine application_id vr w
  = (Raise (mkKYCException "NOT_FOUND" (Some "Application not found")), w)
  ∧ approve_application application_id user notes w
    = (Raise (mkKYCException "NOT_FOUND" (Some "Application not found")), w)
  ∧ reject_application application_id user reason notes w
    = (Raise (mkKYCException "NOT_FOUND" (Some "Application not found")), w).
Proof.
  intros Hnone.
  unfold advance_workflow, approve_application, reject_application, bind, get_by_id.
  by rewrite Hnone.
Qed.

Lemma unknown_application_not_found_witness :
  advance_workflow state_value workflow_engine 2
    (Sample.payload 0.96)
    (Sample.world (Sample.application SUBMITTED None None None))
  = (Raise (mkKYCException "NOT_FOUND" (Some "Application not found")),
     Sample.world (Sample.application SUBMITTED None None None)).
Proof.
  apply (unknown_application_not_found state_value
           workflow_engine
           (Sample.world (Sample.application SUBMITTED None None None)) 2
           (Sample.payload 0.96) Sample.agent "" None).
  reflexivity.
Defined.

(** X16. A user whose role is none of agent, supervisor, admin gets FORBIDDEN
    from [approve_application] and [reject_application], and the application
    and the audit trail are as before. *)
Theorem decision_forbidden_for_other_roles
    (w : World) (application_id : N) (a : KYCApplication) (user : User)
    (reason : string) (notes : option string) :
  apps w !! application_id = Some a →
  role user ∉ ["agent"; "supervisor"; "admin"] →
  approve_application application_id user notes w
  = (Raise (mkKYCException "FORBIDDEN" (Some "Insufficient permissions")), w)
  ∧ reject_application application_id user reason notes w
    = (Raise (mkKYCException "FORBIDDEN" (Some "Insufficient permissions")), w).
Proof.
  intros Hfound Hrole.
  unfold approve_application, reject_application, bind, get_by_id.
  rewrite Hfound. simpl. by rewrite (bool_decide_eq_false_2 _ Hrole).
Qed.

Lemma decision_forbidden_for_other_roles_witness :
  approve_application 1
    {| user_id := 9; username := "inspector"; role := "auditor" |} None
    (Sample.world (Sample.application MANUAL_REVIEW None None None))
  = (Raise (mkKYCException "FORBIDDEN" (Some "Insufficient permissions")),
     Sample.world (Sample.application MANUAL_REVIEW None None None)).
Proof.
  apply (decision_forbidden_for_other_roles
           (Sample.world (Sample.application MANUAL_REVIEW None None None)) 1
           (Sample.application MANUAL_REVIEW None None None)
           {| user_id := 9; username := "inspector"; role := "auditor" |} "" None).
  - reflexivity.
  - by apply (bool_decide_unpack _).
Defined.

(** ** What a decision writes *)

Lemma approve_application_permitted (w : World)
    (application_id : N) (a : KYCApplication) (user : User)
    (notes : option string) :
  apps w !! application_id = Some a →
  role user ∈ ["agent"; "supervisor"; "admin"] →
  approve_application application_id user notes w
  = (Error (AttributeError "Settings" "AUDIT_LOG_RETENTION_DAYS"),
     {| apps := <[application_id := decided APPROVED user notes None (utcnow w) a]>
                  (apps w);
        audit_logs := audit_logs w;
        utcnow := utcnow w |}).
Proof.
  intros Hfound Hrole.
  unfold approve_application, bind, get_by_id, now, update_app, log_action,
    settings_int, error, bind, now, decided.
  rewrite Hfound. simpl. rewrite (bool_decide_eq_true_2 _ Hrole). simpl.
  by rewrite (alter_Some _ _ _ _ Hfound).
Qed.

Lemma reject_application_permitted (w : World)
    (application_id : N) (a : KYCApplication) (user : User)
    (reason : string) (notes : option string) :
  apps w !! application_id = Some a →
  role user ∈ ["agent"; "supervisor"; "admin"] →
  reject_application application_id user reason notes w
  = (Error (AttributeError "Settings" "AUDIT_LOG_RETENTION_DAYS"),
     {| apps := <[application_id :=
                    decided REJECTED user notes (Some reason) (utcnow w) a]> (apps w);
        audit_logs := audit_logs w;
        utcnow := utcnow w |}).
Proof.
  intros Hfound Hrole.
  unfold reject_application, bind, get_by_id, now, update_app, log_action,
    settings_int, error, bind, now, decided.
  rewrite Hfound. simpl. rewrite (bool_decide_eq_true_2 _ Hrole). simpl.
  by rewrite (alter_Some _ _ _ _ Hfound).
Qed.






(** X19. Approving after a rejection: though both calls raise in their audit
    step, both decisions are committed. The application ends APPROVED with the
    second reviewer and notes, the reason of the rejection stays on it, and
    the audit trail holds neither decision. *)
Theorem approve_after_reject_keeps_reason (w : World)
    (application_id : N) (a : KYCApplication) (rejecter approver : User)
    (reason : string) (notes notes' : option string) :
  apps w !! application_id = Some a →
  role rejecter ∈ ["agent"; "supervisor"; "admin"] →
  role approver ∈ ["agent"; "supervisor"; "admin"] →
  ∃ a',
    approve_application application_id approver notes'
      (reject_application application_id rejecter
         reason notes w).2
    = (Error (AttributeError "Settings" "AUDIT_LOG_RETENTION_DAYS"),
       {| apps := <[application_id := a']> (apps w);
          audit_logs := audit_logs w;
          utcnow := utcnow w |})
    ∧ status a' = APPROVED
    ∧ decision_reason a' = Some reason
    ∧ reviewed_by_id a' = Some (user_id approver)
    ∧ review_notes a' = notes'.
Proof.
  intros Hfound Hr Ha.
  rewrite (reject_application_permitted _ _ _ _ _ _ Hfound Hr). simpl.
  rewrite (approve_application_permitted _ _
             (decided REJECTED rejecter notes (Some reason) (utcnow w) a));
    [| simpl; by rewrite lookup_insert_eq | done].
  simpl. rewrite insert_insert_eq.
  eexists. split; [reflexivity |].
  by destruct a.
Qed.

Lemma approve_after_reject_keeps_reason_witness :
  ∃ a',
    approve_application 1 Sample.agent (Some "on appeal")
      (reject_application 1 Sample.agent "blurred photo" None
         (Sample.world (Sample.application MANUAL_REVIEW None None None))).2
    = (Error (AttributeError "Settings" "AUDIT_LOG_RETENTION_DAYS"),
       {| apps := <[1%N := a']>
                    (apps (Sample.world (Sample.application MANUAL_REVIEW None None None)));
          audit_logs := [];
          utcnow := 1700000600 |})
    ∧ status a' = APPROVED
    ∧ decision_reason a' = Some "blurred photo"
    ∧ reviewed_by_id a' = Some 7%N
    ∧ review_notes a' = Some "on appeal".
Proof.
  apply (approve_after_reject_keeps_reason
           (Sample.world (Sample.application MANUAL_REVIEW None None None)) 1
           (Sample.application MANUAL_REVIEW None None None)
           Sample.agent Sample.agent "blurred photo" None (Some "on appeal")).
  - reflexivity.
  - by apply (bool_decide_unpack _).
  - by apply (bool_decide_unpack _).
Defined.

(** ** What no call does to the session *)

Lemma extends_refl (w : World) : extends w w.
Proof. unfold extends. split_and!; [done | done | lia | done]. Qed.

Lemma extends_commit (w : World) (i : N) (a : KYCApplication) :
  is_Some (apps w !! i) →
  extends w {| apps := <[i := a]> (apps w);
               audit_logs := audit_logs w;
               utcnow := utcnow w |}.
Proof.
  intros Hi. unfold extends. simpl. split_and!.
  - by apply dom_insert_lookup_L.
  - done.
  - lia.
  - done.
Qed.

(** X20. Whatever the arguments and whatever the outcome, [advance_workflow],
    [approve_application] and [reject_application] neither add nor remove an
    application, never drop or rewrite an audit entry, and add at most one. *)
Theorem services_extend_session (fmt_state : WorkflowState → string)
    (engine : WorkflowEngine) (w : World)
    (application_id : N) (vr : option (gmap string float)) (user : User)
    (reason : string) (notes : option string) :
  extends w (advance_workflow fmt_state engine
               application_id vr w).2
  ∧ extends w (approve_application
                 application_id user notes w).2
  ∧ extends w (reject_application
                 application_id user reason notes w).2.
Proof.
  destruct (apps w !! application_id) as [a|] eqn:Hfound.
  - split_and!.
    + destruct (decide (_determine_next_state a vr = status a)) as [Hsame|Hmove].
      * unfold advance_workflow, bind, get_by_id. rewrite Hfound.
        rewrite decide_True by done. apply extends_refl.
      * destruct (can_transition fmt_state engine (status a)
                    (_determine_next_state a vr)
                    (_build_transition_conditions (utcnow w) a vr) "system")
          as [[|] r] eqn:Hcan.
        -- rewrite (advance_workflow_allowed _ _ _ _ _ _ _ Hfound Hmove Hcan).
           apply extends_commit. by eexists.
        -- unfold advance_workflow, bind, get_by_id, now. rewrite Hfound.
           rewrite decide_False by done. simpl. rewrite Hcan. apply extends_refl.
    + destruct (decide (role user ∈ ["agent"; "supervisor"; "admin"])) as [Hr|Hr].
      * rewrite (approve_application_permitted _ _ _ _ _ Hfound Hr).
        apply extends_commit. by eexists.
      * unfold approve_application, bind, get_by_id. rewrite Hfound. simpl.
        rewrite (bool_decide_eq_false_2 _ Hr). apply extends_refl.
    + destruct (decide (role user ∈ ["agent"; "supervisor"; "admin"])) as [Hr|Hr].
      * rewrite (reject_application_permitted _ _ _ _ _ _ Hfound Hr).
        apply extends_commit. by eexists.
      * unfold reject_application, bind, get_by_id. rewrite Hfound. simpl.
        rewrite (bool_decide_eq_false_2 _ Hr). apply extends_refl.
  - unfold advance_workflow, approve_application, reject_application, bind, get_by_id.
    rewrite Hfound. simpl. split_and!; apply extends_refl.
Qed.

(** ** [KYCService.calculate_risk_score], continued *)

Lemma check_fraud_indicators_values (w : World) (a : KYCApplication) :
  _check_fraud_indicators w a
  = if Nat.ltb 5 (count_by_ip w (ip_address a) 7) then 0.7%float else 1%float.
Proof.
  unfold _check_fraud_indicators. by destruct (Nat.ltb _ _).
Qed.

(** X21. [calculate_risk_score] writes the overall confidence score and the
    risk tier and nothing else (not the status, not the sub-scores, not the
    [risk_score] column); running it again on its own result returns the same
    score and changes nothing more. *)
Theorem calculate_risk_score_writes_and_repeats (w : World) (a : KYCApplication) :
  status (calculate_risk_score w a).2 = status a
  ∧ risk_score (calculate_risk_score w a).2 = risk_score a
  ∧ document_verification_score (calculate_risk_score w a).2
    = document_verification_score a
  ∧ face_verification_score (calculate_risk_score w a).2
    = face_verification_score a
  ∧ documents (calculate_risk_score w a).2 = documents a
  ∧ verifications (calculate_risk_score w a).2 = verifications a
  ∧ calculate_risk_score w (calculate_risk_score w a).2 = calculate_risk_score w a.
Proof.
  split_and!; by destruct a.
Qed.

(** X22. An application with neither a document nor a face score (missing or
    zero) always comes out CRITICAL: its aggregate is a fifth of the fraud
    score, 0.2 when at most five applications came from its address in the
    last seven days, and 0.7·0.2 (the float 0.13999999999999999) otherwise. *)
Theorem risk_without_scores_is_critical (w : World) (a : KYCApplication) :
  Py.truthy_ofloat (document_verification_score a) = false →
  Py.truthy_ofloat (face_verification_score a) = false →
  (calculate_risk_score w a).1
  = (if Nat.ltb 5 (count_by_ip w (ip_address a) 7) then 0.13999999999999999%float else 0.2%float)
  ∧ risk_level (calculate_risk_score w a).2 = Some CRITICAL.
Proof.
  intros Hd Hf.
  assert ((calculate_risk_score w a).1
          = if Nat.ltb 5 (count_by_ip w (ip_address a) 7)
            then 0.13999999999999999%float else 0.2%float) as Hval.
  { unfold calculate_risk_score, append_if_truthy. simpl.
    rewrite check_fraud_indicators_values.
    destruct (document_verification_score a) as [d|],
             (face_verification_score a) as [f|]; simpl in Hd, Hf;
      rewrite ?Hd, ?Hf; by destruct (Nat.ltb _ _). }
  split; [done |].
  transitivity (Some (_determine_risk_level (calculate_risk_score w a).1));
    [by destruct a |].
  rewrite Hval. by destruct (Nat.ltb _ _).
Qed.

Lemma risk_without_scores_is_critical_witness :
  (calculate_risk_score
     (Sample.world (Sample.application SUBMITTED (Some 0%float) None None))
     (Sample.application SUBMITTED (Some 0%float) None None)).1
  = (if Nat.ltb 5 (count_by_ip
                     (Sample.world (Sample.application SUBMITTED (Some 0%float) None None))
                     (ip_address (Sample.application SUBMITTED (Some 0%float) None None)) 7)
     then 0.13999999999999999%float else 0.2%float)
  ∧ risk_level (calculate_risk_score
                  (Sample.world (Sample.application SUBMITTED (Some 0%float) None None))
                  (Sample.application SUBMITTED (Some 0%float) None None)).2
    = Some CRITICAL.
Proof.
  apply (risk_without_scores_is_critical
           (Sample.world (Sample.application SUBMITTED (Some 0%float) None None))
           (Sample.application SUBMITTED (Some 0%float) None None)).
  - reflexivity.
  - reflexivity.
Defined.

(** ** [KYCService._validate_application] *)

Lemma document_type_value_inj (t1 t2 : DocumentType) :
  document_type_value t1 = document_type_value t2 → t1 = t2.
Proof. destruct t1, t2; simpl; intros H; by try discriminate H. Qed.

Lemma uploaded_value (t : DocumentType) (docs : list Document) :
  bool_decide (document_type_value t
                 ∈ (fun doc => document_type_value (document_type doc)) <$> docs)
  = bool_decide (t ∈ document_type <$> docs).
Proof.
  apply bool_decide_ext. rewrite !list_elem_of_fmap.
  split; intros (doc & Heq & Hin); exists doc; (split; [| done]).
  - by apply document_type_value_inj.
  - by rewrite Heq.
Qed.

(** X23. [_validate_application] accepts an application exactly when the
    workflow's own checks [_has_customer_data] and [_has_required_documents]
    both hold, and exactly then its error list is empty; it never reports more
    than six errors. *)
Theorem validate_application_matches_conditions (a : KYCApplication) :
  ((_validate_application a).1 = true
   ↔ _has_customer_data a = true ∧ _has_required_documents a = true)
  ∧ ((_validate_application a).1 = true ↔ (_validate_application a).2 = [])
  ∧ (length (_validate_application a).2 ≤ 6)%nat.
Proof.
  pose proof (uploaded_value CIN_FRONT (documents a)) as H1.
  pose proof (uploaded_value CIN_BACK (documents a)) as H2.
  pose proof (uploaded_value SELFIE (documents a)) as H3.
  cbn [document_type_value] in H1, H2, H3.
  unfold _validate_application, _has_customer_data, _has_required_documents.
  cbn [foldl forallb id]. rewrite H1, H2, H3.
  destruct (Py.truthy_str (cin_number a)), (Py.truthy_str (first_name a)),
           (Py.truthy_str (last_name a)),
           (bool_decide (is_Some (date_of_birth a))),
           (bool_decide (CIN_FRONT ∈ document_type <$> documents a)),
           (bool_decide (CIN_BACK ∈ document_type <$> documents a)),
           (bool_decide (SELFIE ∈ document_type <$> documents a));
    simpl; split_and!; try lia; split; try done; by intros [? ?].
Qed.

(** ** [KYCRepository.get_expired_applications] *)






(** The witness is on the allowed side of the equivalence. *)
Example expired_submitted_application_moves :
  Sample.application SUBMITTED None None None
    ∈ get_expired_applications
        {| apps := {[ 1%N := Sample.application SUBMITTED None None None ]};
           audit_logs := [];
           utcnow := 1800000000 |}
  ∧ can_transition state_value workflow_engine SUBMITTED EXPIRED
      (_build_transition_conditions 1800000000
         (Sample.application SUBMITTED None None None) None) "system"
    = (true, None).
Proof. split; [vm_compute; left | vm_compute; reflexivity]. Qed.

(** ** [app/dependencies.py]: who reaches the decision endpoints *)


